(** * datacube.py: spectral-line data cubes, channel lookup and moments

    A shallow embedding of [src/datacube.py] (classes [Datacube],
    [DatacubeMoments] and [EBHISDatacube]) together with the properties of
    its channel lookup, its moment integration and its error behaviour.

    Conventions of the embedding.
    - Array elements are exact rationals extended with not-a-number and the
      two infinities ([fval]); rounding and the sign of zero are not
      represented.
    - An [ndarray] is a dtype tag, a shape and a row-major buffer, as NumPy
      stores it.  Intermediate NumPy expressions are [view]s (a shape and an
      element function); [materialize] lays a view out in row-major order.
    - A Python object is a record of its attributes; a method is a function
      in the monad [M], which threads the object and may raise.  What an
      exception leaves mutated stays mutated.
    - The astropy calls of the module (opening a file, building the WCS,
      pixel-to-world, unit conversion) are the fields of [Astropy]. *)

From Stdlib Require Import String Ascii Bool Arith ZArith QArith Qround Lia Lqa List.
Import ListNotations.

Close Scope Q_scope.
Open Scope nat_scope.

(* ================================================================= *)
(** * Python: exceptions, results, sequences *)

Inductive exn : Type :=
| AttributeError (msg : string)
| IndexError (msg : string)
| TypeError (msg : string)
| ValueError (msg : string)
| UnitConversionError (msg : string)
| IOError (msg : string).

Inductive result (A : Type) : Type :=
| Ok (a : A)
| Raise (e : exn).

Arguments Ok {A} a.
Arguments Raise {A} e.

Definition is_ok {A} (r : result A) : bool :=
  match r with Ok _ => true | Raise _ => false end.

Module Py.

(** [l[i]] for an integer [i]: negative indices count from the end. *)
Definition index {A} (l : list A) (i : Z) : option A :=
  let n := Z.of_nat (length l) in
  if (0 <=? i)%Z then nth_error l (Z.to_nat i)
  else if (0 <=? i + n)%Z then nth_error l (Z.to_nat (i + n))
  else None.

(** [pat in s] on strings. *)
Fixpoint contains (pat s : string) : bool :=
  if String.prefix pat s then true
  else match s with
       | EmptyString => false
       | String _ s' => contains pat s'
       end.

(** [slice(start, stop)]; [start = None] is [slice(stop)]. *)
Record slice : Type := { start : option Z; stop : Z }.

(** An endpoint of a slice against a sequence of length [n]. *)
Definition clamp (n : nat) (i : Z) : nat :=
  let n' := Z.of_nat n in
  Z.to_nat (if (i <? 0)%Z then Z.max (i + n') 0 else Z.min i n').

(** [slice.indices(n)] with step 1: first selected index and count. *)
Definition slice_indices (s : slice) (n : nat) : nat * nat :=
  let lo := match start s with None => 0 | Some i => clamp n i end in
  let hi := clamp n (stop s) in
  (lo, hi - lo).

(** [l[s]] on a list. *)
Definition getslice {A} (l : list A) (s : slice) : list A :=
  let '(lo, k) := slice_indices s (length l) in
  firstn k (skipn lo l).

(** [l[-1] += 1] on a list of integers. *)
Fixpoint incr_last (l : list Z) : option (list Z) :=
  match l with
  | [] => None
  | [c] => Some [(c + 1)%Z]
  | c :: l' => option_map (cons c) (incr_last l')
  end.

(** [[int(f(c)) for f, c in izip(fs, cs)]]: [izip] stops at the shorter. *)
Fixpoint izip_apply (fs : list (Q -> Z)) (cs : list Q) : list Z :=
  match fs, cs with
  | f :: fs', c :: cs' => f c :: izip_apply fs' cs'
  | _, _ => []
  end.

(** [slice] applied to an unpacked argument list. *)
Definition slice_of_args (args : list Z) : result slice :=
  match args with
  | [] => Raise (TypeError "slice expected at least 1 arguments, got 0")
  | [a] => Ok {| start := None; stop := a |}
  | [a; b] => Ok {| start := Some a; stop := b |}
  | _ => Raise (TypeError "slice expected at most 3 arguments")
  end.

End Py.

(* ================================================================= *)
(** * NumPy: element values, arrays, views *)

Module Np.

(** ** Element values *)

Inductive fval : Type :=
| Fin (q : Q)
| PInf
| NInf
| NaN.

Definition one : fval := Fin 1%Q.
Definition zero : fval := Fin 0%Q.

Definition isnan (x : fval) : bool :=
  match x with NaN => true | _ => false end.

(** Sign of a rational: that of its numerator. *)
Definition sgn (q : Q) : Z := Z.sgn (Qnum q).

Definition inf_of_sign (s : Z) : fval :=
  match s with Z0 => NaN | Zpos _ => PInf | Zneg _ => NInf end.

Definition sign_of (x : fval) : Z :=
  match x with Fin q => sgn q | PInf => 1%Z | NInf => (-1)%Z | NaN => 0%Z end.

Definition fmul (x y : fval) : fval :=
  match x, y with
  | NaN, _ | _, NaN => NaN
  | Fin a, Fin b => Fin (a * b)%Q
  | _, _ => inf_of_sign (sign_of x * sign_of y)
  end.

Definition fadd (x y : fval) : fval :=
  match x, y with
  | NaN, _ | _, NaN => NaN
  | Fin a, Fin b => Fin (a + b)%Q
  | PInf, NInf | NInf, PInf => NaN
  | PInf, _ | _, PInf => PInf
  | NInf, _ | _, NInf => NInf
  end.

(** Division; a finite value over zero is an infinity of the sign of the
    numerator, zero over zero is not a number. *)
Definition fdiv (x y : fval) : fval :=
  match x, y with
  | NaN, _ | _, NaN => NaN
  | Fin a, Fin b =>
      if Qeq_bool b 0%Q then inf_of_sign (sgn a) else Fin (a / b)%Q
  | Fin _, _ => zero
  | _, Fin b =>
      if Qeq_bool b 0%Q then x else inf_of_sign (sign_of x * sgn b)
  | _, _ => NaN
  end.

(** What [nansum] adds for an element: not-a-number counts as zero. *)
Definition nan_to_zero (x : fval) : fval :=
  if isnan x then zero else x.

(** ** Arrays *)

Inductive dtype : Type := float32 | float64 | int16 | int32 | int64.

Definition dtype_eqb (a b : dtype) : bool :=
  match a, b with
  | float32, float32 | float64, float64
  | int16, int16 | int32, int32 | int64, int64 => true
  | _, _ => false
  end.

Record ndarray : Type :=
  { dtype_of : dtype; shape : list nat; buf : list fval }.

Definition size (sh : list nat) : nat := fold_right Nat.mul 1 sh.

(** The array owns one element per index. *)
Definition wf (a : ndarray) : Prop := length (buf a) = size (shape a).

(** Row-major offset of a multi-index. *)
Fixpoint ravel (sh idx : list nat) : nat :=
  match sh, idx with
  | _ :: sh', i :: idx' => i * size sh' + ravel sh' idx'
  | _, _ => 0
  end.

(** All multi-indices of a shape, in row-major order. *)
Fixpoint indices (sh : list nat) : list (list nat) :=
  match sh with
  | [] => [[]]
  | d :: sh' => flat_map (fun i => map (cons i) (indices sh')) (seq 0 d)
  end.

Definition item (a : ndarray) (idx : list nat) : fval :=
  nth (ravel (shape a) idx) (buf a) NaN.

(** [a.astype(t)]. *)
Definition astype (a : ndarray) (t : dtype) : ndarray :=
  {| dtype_of := t; shape := shape a; buf := buf a |}.

Definition shape_eqb (s1 s2 : list nat) : bool :=
  if list_eq_dec Nat.eq_dec s1 s2 then true else false.

(** ** Views: NumPy expressions before they are laid out *)

Record view : Type := { vshape : list nat; vitem : list nat -> fval }.

Definition of_array (a : ndarray) : view :=
  {| vshape := shape a; vitem := item a |}.

(** A computed array: its shape and its elements in row-major order.
    The element type NumPy's promotion rules give it is not represented. *)
Record computed : Type := { cshape : list nat; cbuf : list fval }.

Definition materialize (v : view) : computed :=
  {| cshape := vshape v; cbuf := map (vitem v) (indices (vshape v)) |}.

Definition citem (c : computed) (idx : list nat) : fval :=
  nth (ravel (cshape c) idx) (cbuf c) NaN.

(** A Python float used as an operand. *)
Definition scalar (x : fval) : view :=
  {| vshape := []; vitem := fun _ => x |}.

(** [v[s]]: a slice along the first axis. *)
Definition getslice (v : view) (s : Py.slice) : result view :=
  match vshape v with
  | [] => Raise (IndexError "too many indices for array")
  | n :: sh =>
      let '(lo, k) := Py.slice_indices s n in
      Ok {| vshape := k :: sh;
            vitem := fun idx =>
              match idx with
              | i :: idx' => vitem v ((lo + i) :: idx')
              | [] => NaN
              end |}
  end.

(** [v[None]]: a new first axis of length one. *)
Definition newaxis (v : view) : view :=
  {| vshape := 1 :: vshape v; vitem := fun idx => vitem v (tl idx) |}.

(** [v[:, None, None]] on a one-dimensional [v]. *)
Definition column (v : view) : view :=
  {| vshape := vshape v ++ [1; 1];
     vitem := fun idx => vitem v (firstn (length (vshape v)) idx) |}.

(** *** Broadcasting *)

(** Shapes are aligned on the last axis, so they are compared read
    backwards; where one shape has run out the other gives the length,
    which is what padding the shorter with ones amounts to. *)
Fixpoint broadcast_rev (r1 r2 : list nat) : option (list nat) :=
  match r1, r2 with
  | [], r => Some r
  | r, [] => Some r
  | a :: r1', b :: r2' =>
      match broadcast_rev r1' r2' with
      | None => None
      | Some r =>
          if a =? b then Some (a :: r)
          else if a =? 1 then Some (b :: r)
          else if b =? 1 then Some (a :: r)
          else None
      end
  end.

Definition broadcast_shapes (s1 s2 : list nat) : option (list nat) :=
  option_map (@rev nat) (broadcast_rev (rev s1) (rev s2)).

(** An axis of length one is read at index 0 whatever the index; the
    leading axes the operand does not have are dropped.  Shape and index
    are read backwards. *)
Fixpoint project_rev (rsh ridx : list nat) : list nat :=
  match rsh, ridx with
  | d :: rsh', i :: ridx' => (if d =? 1 then 0 else i) :: project_rev rsh' ridx'
  | _, _ => []
  end.

(** Element of [v] at an index of a shape [v] was broadcast to. *)
Definition bitem (v : view) (idx : list nat) : fval :=
  vitem v (rev (project_rev (rev (vshape v)) (rev idx))).

Definition map2 (f : fval -> fval -> fval) (v1 v2 : view) : result view :=
  match broadcast_shapes (vshape v1) (vshape v2) with
  | None =>
      Raise (ValueError "operands could not be broadcast together")
  | Some sh =>
      Ok {| vshape := sh;
            vitem := fun idx => f (bitem v1 idx) (bitem v2 idx) |}
  end.

Definition multiply := map2 fmul.
Definition divide := map2 fdiv.

(** [np.nansum(v, 0)]. *)
Definition nansum0 (v : view) : result view :=
  match vshape v with
  | [] => Raise (ValueError "axis 0 is out of bounds for array of dimension 0")
  | n :: sh =>
      Ok {| vshape := sh;
            vitem := fun idx =>
              fold_left fadd
                (map (fun i => nan_to_zero (vitem v (i :: idx))) (seq 0 n))
                zero |}
  end.

(** ** Sorted search *)

(** [a[sorter]]: the array read through a permutation. *)
Definition through (a : list Q) (sorter : option (list nat)) : list Q :=
  match sorter with
  | None => a
  | Some s => map (fun i => nth i a 0%Q) s
  end.

(** Bisection for the leftmost insertion point in [lo, hi). *)
Fixpoint bisect_left (fuel : nat) (a : list Q) (v : Q) (lo hi : nat) : nat :=
  match fuel with
  | O => lo
  | S fuel' =>
      if lo <? hi then
        let mid := lo + (hi - lo) / 2 in
        if Qlt_le_dec (nth mid a 0%Q) v
        then bisect_left fuel' a v (mid + 1) hi
        else bisect_left fuel' a v lo mid
      else lo
  end.

(** [np.searchsorted(a, v, side='left', sorter=sorter)] for one [v]:
    an insertion point into [a[sorter]]. *)
Definition searchsorted (a : list Q) (v : Q) (sorter : option (list nat)) : nat :=
  let b := through a sorter in
  bisect_left (length b) b v 0 (length b).

(** [np.arange(n)[::-1]]. *)
Definition arange_reversed (n : nat) : list nat := rev (seq 0 n).

Definition floor (q : Q) : Z := Qfloor q.
Definition ceil (q : Q) : Z := Qceiling q.

End Np.

(* ================================================================= *)
(** * astropy: units, quantities, FITS, WCS *)

Inductive Unit : Type :=
| dimensionless_unscaled
| Hz
| km_per_s
| other_unit (name : string).

Definition is_dimensionless_unscaled (u : Unit) : bool :=
  match u with dimensionless_unscaled => true | _ => false end.

(** A one-dimensional [Quantity]: its [.value] and its [.unit]. *)
Record Quantity : Type := { value : list Q; unit : Unit }.

Inductive equivalency : Type :=
| doppler_radio (rest : Q)
| doppler_optical (rest : Q)
| no_equivalency.

(** A FITS header: keyword cards in order. *)
Definition Header : Type := list (string * string).

(** [header[key] = v]. *)
Fixpoint header_set (key v : string) (h : Header) : Header :=
  match h with
  | [] => [(key, v)]
  | (k, x) :: h' =>
      if String.eqb k key then (k, v) :: h' else (k, x) :: header_set key v h'
  end.

Record HDU : Type :=
  { is_image : bool; hdu_data : Np.ndarray; hdu_header : Header }.

(** [fits.ImageHDU(data=data, header=header)]. *)
Definition ImageHDU (data : Np.ndarray) (header : Header) : HDU :=
  {| is_image := true; hdu_data := data; hdu_header := header |}.

Definition set_hdu_data (h : HDU) (d : Np.ndarray) : HDU :=
  {| is_image := is_image h; hdu_data := d; hdu_header := hdu_header h |}.

Definition set_hdu_header (h : HDU) (hd : Header) : HDU :=
  {| is_image := is_image h; hdu_data := hdu_data h; hdu_header := hd |}.

(** What the module reads of a [WCS] object [w]: [w.wcs.spec],
    [w.wcs.ctype], [w.wcs.cunit], [w.wcs.restfrq]; and the header it was
    built from. *)
Record WCS : Type :=
  { wcs_source : Header;
    spec : Z;
    ctype : list string;
    cunit : list string;
    restfrq : Q }.

(** The astropy functions the module calls. *)
Record Astropy : Type :=
  { fits_open : string -> result (list HDU);
    WCS_of_header : Header -> WCS;
    wcs_sub : WCS -> list string -> WCS;
    wcs_pix2world : WCS -> list nat -> list Q;
    Unit_of_string : string -> result Unit;
    Quantity_to : Quantity -> Unit -> equivalency -> result Quantity }.

(* ================================================================= *)
(** * The object and the monad of its methods *)

(** The attributes of a [Datacube] instance.  [velocities] is the attribute
    [DatacubeMoments.moment] reads; no class of the module defines it, so it
    is absent ([None]) unless a caller or a further subclass adds it. *)
Record Datacube : Type :=
  { _wcs : option WCS;
    _hdu : option HDU;
    _dtype : Np.dtype;
    _axis_units : option (list Unit);
    _frequencies : option Quantity;
    _radio_velocities : option Quantity;
    _optical_velocities : option Quantity;
    velocities : option Quantity }.

Definition set_wcs (x : option WCS) (s : Datacube) : Datacube :=
  {| _wcs := x; _hdu := _hdu s; _dtype := _dtype s;
     _axis_units := _axis_units s; _frequencies := _frequencies s;
     _radio_velocities := _radio_velocities s;
     _optical_velocities := _optical_velocities s;
     velocities := velocities s |}.

Definition set_hdu (x : option HDU) (s : Datacube) : Datacube :=
  {| _wcs := _wcs s; _hdu := x; _dtype := _dtype s;
     _axis_units := _axis_units s; _frequencies := _frequencies s;
     _radio_velocities := _radio_velocities s;
     _optical_velocities := _optical_velocities s;
     velocities := velocities s |}.

Definition set_axis_units (x : option (list Unit)) (s : Datacube) : Datacube :=
  {| _wcs := _wcs s; _hdu := _hdu s; _dtype := _dtype s;
     _axis_units := x; _frequencies := _frequencies s;
     _radio_velocities := _radio_velocities s;
     _optical_velocities := _optical_velocities s;
     velocities := velocities s |}.

Definition set_frequencies (x : option Quantity) (s : Datacube) : Datacube :=
  {| _wcs := _wcs s; _hdu := _hdu s; _dtype := _dtype s;
     _axis_units := _axis_units s; _frequencies := x;
     _radio_velocities := _radio_velocities s;
     _optical_velocities := _optical_velocities s;
     velocities := velocities s |}.

Definition set_radio_velocities (x : option Quantity) (s : Datacube) : Datacube :=
  {| _wcs := _wcs s; _hdu := _hdu s; _dtype := _dtype s;
     _axis_units := _axis_units s; _frequencies := _frequencies s;
     _radio_velocities := x;
     _optical_velocities := _optical_velocities s;
     velocities := velocities s |}.

Definition set_optical_velocities (x : option Quantity) (s : Datacube) : Datacube :=
  {| _wcs := _wcs s; _hdu := _hdu s; _dtype := _dtype s;
     _axis_units := _axis_units s; _frequencies := _frequencies s;
     _radio_velocities := _radio_velocities s;
     _optical_velocities := x;
     velocities := velocities s |}.

(** A method: it runs on the object, returns or raises, and leaves the
    object as it mutated it. *)
Definition M (A : Type) : Type := Datacube -> result A * Datacube.

Definition ret {A} (a : A) : M A := fun s => (Ok a, s).

Definition raise {A} (e : exn) : M A := fun s => (Raise e, s).

Definition bind {A B} (m : M A) (k : A -> M B) : M B :=
  fun s =>
    match m s with
    | (Ok a, s') => k a s'
    | (Raise e, s') => (Raise e, s')
    end.

Definition lift {A} (r : result A) : M A := fun s => (r, s).

Definition get_attr {A} (f : Datacube -> A) : M A := fun s => (Ok (f s), s).

Definition modify (f : Datacube -> Datacube) : M Datatypes.unit := fun s => (Ok tt, f s).

Definition of_option {A} (o : option A) (e : exn) : M A :=
  match o with Some a => ret a | None => raise e end.

Declare Scope method_scope.
Delimit Scope method_scope with method.

Notation "x <- m ;; k" := (bind m (fun x => k))
  (at level 61, m at next level, right associativity) : method_scope.
Notation "' p <- m ;; k" := (bind m (fun x => match x with p => k end))
  (at level 61, p pattern, m at next level, right associativity) : method_scope.
Notation "m ;;; k" := (bind m (fun _ => k))
  (at level 61, right associativity) : method_scope.

Open Scope method_scope.

(** [[f(x) for x in l]] where [f] may raise. *)
Fixpoint traverse {A B} (f : A -> result B) (l : list A) : result (list B) :=
  match l with
  | [] => Ok []
  | x :: l' =>
      match f x with
      | Raise e => Raise e
      | Ok y =>
          match traverse f l' with
          | Raise e => Raise e
          | Ok ys => Ok (y :: ys)
          end
      end
  end.

Definition no_attribute (obj attr : string) : exn :=
  AttributeError ("'" ++ obj ++ "' object has no attribute '" ++ attr ++ "'").

(* ================================================================= *)
(** * class Datacube *)

Section Classes.

Variable astropy : Astropy.

(** The class attributes every instance starts from. *)
Definition class_defaults : Datacube :=
  {| _wcs := None; _hdu := None; _dtype := Np.float32;
     _axis_units := None; _frequencies := None;
     _radio_velocities := None; _optical_velocities := None;
     velocities := None |}.

Definition with_dtype (t : Np.dtype) (s : Datacube) : Datacube :=
  {| _wcs := _wcs s; _hdu := _hdu s; _dtype := t;
     _axis_units := _axis_units s; _frequencies := _frequencies s;
     _radio_velocities := _radio_velocities s;
     _optical_velocities := _optical_velocities s;
     velocities := velocities s |}.

(** [Datacube.__init__(self, path, data, header, dtype=...)]: the
    constructed object, or the exception that escapes. *)
Definition __init__ (path : option string) (data : option Np.ndarray)
    (header : option Header) (dtype : option Np.dtype) : result Datacube :=
  let self :=
    with_dtype (match dtype with Some t => t | None => Np.float32 end)
               class_defaults in
  match path with
  | Some p =>
      match fits_open astropy p with
      | Raise e => Raise e
      | Ok hdus =>
          match find is_image hdus with
          | Some h => Ok (set_hdu (Some h) self)
          | None => Ok self
          end
      end
  | None =>
      match data, header with
      | Some d, Some h => Ok (set_hdu (Some (ImageHDU d h)) self)
      | _, _ =>
          Raise (AttributeError
                   "Either path or data and header have to be set.")
      end
  end.

(** The [data] property. *)
Definition data : M Np.ndarray := fun self =>
  match _hdu self with
  | None => (Raise (no_attribute "NoneType" "data"), self)
  | Some h =>
      if Np.dtype_eqb (Np.dtype_of (hdu_data h)) (_dtype self)
      then (Ok (hdu_data h), self)
      else
        let d := Np.astype (hdu_data h) (_dtype self) in
        (Ok d, set_hdu (Some (set_hdu_data h d)) self)
  end.

(** The [header] property. *)
Definition header : M Header := fun self =>
  match _hdu self with
  | None => (Raise (no_attribute "NoneType" "header"), self)
  | Some h => (Ok (hdu_header h), self)
  end.

(** The [hdu] property. *)
Definition hdu : M (option HDU) := get_attr _hdu.

(** The [wcs] property. *)
Definition wcs : M WCS :=
  cached <- get_attr _wcs ;;
  match cached with
  | Some w => ret w
  | None =>
      h <- header ;;
      let w := WCS_of_header astropy h in
      modify (set_wcs (Some w)) ;;;
      ret w
  end.

Definition spec_wcs : M WCS :=
  w <- wcs ;; ret (wcs_sub astropy w ["spectral"%string]).

Definition cel_wcs : M WCS :=
  w <- wcs ;; ret (wcs_sub astropy w ["longitude"%string; "latitude"%string]).

(** The [axis_units] property. *)
Definition axis_units : M (list Unit) :=
  cached <- get_attr _axis_units ;;
  match cached with
  | Some us => ret us
  | None =>
      w <- wcs ;;
      us <- lift (traverse (Unit_of_string astropy) (cunit w)) ;;
      modify (set_axis_units (Some us)) ;;;
      ret us
  end.

Definition tuple_index {A} (l : list A) (i : Z) : M A :=
  of_option (Py.index l i) (IndexError "tuple index out of range").

Definition list_index {A} (l : list A) (i : Z) : M A :=
  of_option (Py.index l i) (IndexError "list index out of range").

Definition unsupported_spectral_type (t : string) : string :=
  "Unsupported spectral type " ++ t ++ " in header.".

(** The [frequencies] property.  The WCS object is the one the first
    access caches; every later [self.wcs] returns it. *)
Definition frequencies : M Quantity :=
  cached <- get_attr _frequencies ;;
  match cached with
  | Some f => ret f
  | None =>
      w <- wcs ;;
      let specax := spec w in
      d <- data ;;
      n <- tuple_index (rev (Np.shape d)) specax ;;
      let channels := seq 0 n in
      sw <- spec_wcs ;;
      let specc := wcs_pix2world astropy sw channels in
      us <- axis_units ;;
      u <- list_index us specax ;;
      let specc := {| value := specc; unit := u |} in
      t <- list_index (ctype w) specax ;;
      eq <- (if Py.contains "VRAD" t then ret (doppler_radio (restfrq w))
             else
               t' <- list_index (ctype w) specax ;;
               if Py.contains "VOPT" t' then ret (doppler_optical (restfrq w))
               else
                 t'' <- list_index (ctype w) specax ;;
                 if Py.contains "FREQ" t'' then ret no_equivalency
                 else
                   t3 <- list_index (ctype w) specax ;;
                   raise (AttributeError (unsupported_spectral_type t3))) ;;
      f <- lift (Quantity_to astropy specc Hz eq) ;;
      modify (set_frequencies (Some f)) ;;;
      ret f
  end.

(** The [radio_velocities] property. *)
Definition radio_velocities : M Quantity :=
  cached <- get_attr _radio_velocities ;;
  match cached with
  | Some v => ret v
  | None =>
      w <- wcs ;;
      let rad_eq := doppler_radio (restfrq w) in
      f <- frequencies ;;
      v <- lift (Quantity_to astropy f km_per_s rad_eq) ;;
      modify (set_radio_velocities (Some v)) ;;;
      ret v
  end.

(** The [optical_velocities] property. *)
Definition optical_velocities : M Quantity :=
  cached <- get_attr _optical_velocities ;;
  match cached with
  | Some v => ret v
  | None =>
      w <- wcs ;;
      let opt_eq := doppler_optical (restfrq w) in
      f <- frequencies ;;
      v <- lift (Quantity_to astropy f km_per_s opt_eq) ;;
      modify (set_optical_velocities (Some v)) ;;;
      ret v
  end.

(** [a[i]] on a one-dimensional array. *)
Definition array_index (a : list Q) (i : Z) : M Q :=
  of_option (Py.index a i)
    (IndexError "index out of bounds for axis 0").

(** [a[channels]]: every index must be in range. *)
Definition take (a : list Q) (channels : list Z) : result (list Q) :=
  traverse
    (fun c =>
       match Py.index a c with
       | Some x => Ok x
       | None => Raise (IndexError "index out of bounds for axis 0")
       end)
    channels.

(** [radio_velocities_to_channels(self, velocities)], on
    [u.Quantity(velocities)]. *)
Definition radio_velocities_to_channels (velocities : Quantity)
  : M (list Z * Quantity) :=
  let sv := velocities in
  sv <- (if negb (is_dimensionless_unscaled (unit sv)) then
           rv <- radio_velocities ;;
           q <- lift (Quantity_to astropy sv (unit rv) no_equivalency) ;;
           ret (value q)
         else ret (value sv)) ;;
  rv0 <- radio_velocities ;;
  first <- array_index (value rv0) 0 ;;
  rv1 <- radio_velocities ;;
  last <- array_index (value rv1) (-1) ;;
  sorter <- (if Qlt_le_dec last first then
               rv <- radio_velocities ;;
               ret (Some (Np.arange_reversed (length (value rv))))
             else ret None) ;;
  rv2 <- radio_velocities ;;
  let channels :=
    map (fun v => Z.of_nat (Np.searchsorted (value rv2) v sorter)) sv in
  rv3 <- radio_velocities ;;
  tv <- lift (take (value rv3) channels) ;;
  let true_velocities := {| value := tv; unit := unit rv3 |} in
  ret (channels, true_velocities).

(* ================================================================= *)
(** * class DatacubeMoments *)

(** [self.velocities]. *)
Definition get_velocities : M Quantity :=
  v <- get_attr velocities ;;
  of_option v (no_attribute "EBHISDatacube" "velocities").

(** A one-dimensional array of numbers as a view. *)
Definition view_of_values (l : list Q) : Np.view :=
  {| Np.vshape := [length l];
     Np.vitem := fun idx =>
       match idx with
       | i :: _ => match nth_error l i with
                   | Some q => Np.Fin q
                   | None => Np.NaN
                   end
       | [] => Np.NaN
       end |}.

(** [m /= d]: the quotient must have the shape of [m]. *)
Definition idivide (m d : Np.view) : result Np.view :=
  match Np.divide m d with
  | Raise e => Raise e
  | Ok q =>
      if Np.shape_eqb (Np.vshape q) (Np.vshape m) then Ok q
      else Raise (ValueError "non-broadcastable output operand")
  end.

(** Lines 167-169 of [moment]: the channel range, from the velocity range
    when one is given. *)
Definition moment_range (vslice : option Quantity) (cslice : option (list Q))
  : M (option (list Q)) :=
  match vslice with
  | Some v =>
      ' (channels, _) <- radio_velocities_to_channels v ;;
      match Py.incr_last channels with
      | Some channels' => ret (Some (map inject_Z channels'))
      | None =>
          raise (IndexError "index -1 is out of bounds for axis 0 with size 0")
      end
  | None => ret cslice
  end.

(** Lines 173-175 of [moment]: the slice of a channel range. *)
Definition moment_slice (cslice : list Q) : result Py.slice :=
  let cslice := Py.izip_apply [Np.floor; Np.ceil] cslice in
  Py.slice_of_args cslice.

(** Lines 177-182 of [moment]: the mask as an operand. *)
Definition moment_mask (mask : option Np.ndarray) (data_slice : Py.slice)
  : M Np.view :=
  match mask with
  | None => ret (Np.scalar Np.one)
  | Some mask =>
      d <- data ;;
      if Np.shape_eqb (Np.shape mask) (tl (Np.shape d))
      then ret (Np.newaxis (Np.of_array mask))
      else
        d' <- data ;;
        if Np.shape_eqb (Np.shape mask) (Np.shape d')
        then lift (Np.getslice (Np.of_array mask) data_slice)
        else ret (Np.of_array mask)
  end.

(** [moment(self, vslice, cslice, kind, mask)]; [None] is Python's
    [None], returned when no [return] statement is reached. *)
Definition moment (vslice : option Quantity) (cslice : option (list Q))
    (kind : Z) (mask : option Np.ndarray) : M (option Np.computed) :=
  cslice <- moment_range vslice cslice ;;
  match cslice with
  | Some cslice =>
      data_slice <- lift (moment_slice cslice) ;;
      mask <- moment_mask mask data_slice ;;
      d <- data ;;
      s_data <- lift (Np.getslice (Np.of_array d) data_slice) ;;
      if (kind =? 0)%Z then
        p <- lift (Np.multiply s_data mask) ;;
        r <- lift (Np.nansum0 p) ;;
        ret (Some (Np.materialize r))
      else if (kind =? 1)%Z then
        v <- get_velocities ;;
        sv <- lift (Np.getslice (view_of_values (value v)) data_slice) ;;
        let s_velocities := Np.column sv in
        p <- lift (Np.multiply s_data s_velocities) ;;
        p' <- lift (Np.multiply p mask) ;;
        m <- lift (Np.nansum0 p') ;;
        q <- lift (Np.multiply s_data mask) ;;
        den <- lift (Np.nansum0 q) ;;
        m' <- lift (idivide m den) ;;
        ret (Some (Np.materialize m'))
      else ret None
  | None => ret None
  end.

(* ================================================================= *)
(** * class EBHISDatacube(Datacube, DatacubeMoments) *)

Definition EBHISDatacube__init__ (path : option string)
    (data : option Np.ndarray) (header : option Header)
    (dtype : option Np.dtype) : result Datacube :=
  match __init__ path data header dtype with
  | Raise e => Raise e
  | Ok self =>
      match _hdu self with
      | None => Raise (no_attribute "NoneType" "header")
      | Some h =>
          let hd := header_set "CUNIT3" "m/s" (hdu_header h) in
          let hd := header_set "CTYPE3" "VRAD" hd in
          let hd := header_set "SPECSYS" "LSRK" hd in
          Ok (set_hdu (Some (set_hdu_header h hd)) self)
      end
  end.

End Classes.

(* ================================================================= *)
(** * Definitions used by the statements *)

(** ** The lookup as a function of the axis *)

(** The test of line 151: the first element is greater than the last. *)
Definition is_reversed (rv : list Q) : bool :=
  match rv with
  | [] => false
  | first :: _ => if Qlt_le_dec (last rv first) first then true else false
  end.

(** The sorter of lines 151-154. *)
Definition sorter_of (rv : list Q) : option (list nat) :=
  if is_reversed rv then Some (Np.arange_reversed (length rv)) else None.

(** The channel line 156 computes for one velocity. *)
Definition channel_of (rv : list Q) (v : Q) : nat :=
  Np.searchsorted rv v (sorter_of rv).

(** Lines 144-148: the numbers searched for. *)
Definition query_values (astropy : Astropy) (rv velocities : Quantity)
  : result (list Q) :=
  if negb (is_dimensionless_unscaled (unit velocities)) then
    match Quantity_to astropy velocities (unit rv) no_equivalency with
    | Ok q => Ok (value q)
    | Raise e => Raise e
    end
  else Ok (value velocities).

(** Lines 150-160 as a function of the axis and of the numbers searched
    for. *)
Definition lookup (rv : Quantity) (sv : list Q) : result (list Z * Quantity) :=
  let channels := map (fun v => Z.of_nat (channel_of (value rv) v)) sv in
  match take (value rv) channels with
  | Ok tv => Ok (channels, {| value := tv; unit := unit rv |})
  | Raise e => Raise e
  end.

(** ** Orders on an axis *)

Definition ascending (a : list Q) : Prop :=
  forall i j, i < j < length a -> (nth i a 0 < nth j a 0)%Q.

Definition descending (a : list Q) : Prop :=
  forall i j, i < j < length a -> (nth j a 0 < nth i a 0)%Q.

Definition non_decreasing (a : list Q) : Prop :=
  forall i j, i <= j < length a -> (nth i a 0 <= nth j a 0)%Q.

(** ** Slices *)

(** Channel [c] is among those [s] selects from [n] channels. *)
Definition selects (s : Py.slice) (n c : nat) : Prop :=
  let '(lo, k) := Py.slice_indices s n in lo <= c < lo + k.

(** ** Indices and masks *)

(** [idx] is an index of an array of shape [sh]. *)
Definition in_range (idx sh : list nat) : Prop := Forall2 lt idx sh.

(** The mask [m] repeated on each of [n] channels:
    [np.broadcast_to(m, (n,) + m.shape)] laid out. *)
Definition expand_mask (m : Np.ndarray) (n : nat) : Np.ndarray :=
  {| Np.dtype_of := Np.dtype_of m;
     Np.shape := n :: Np.shape m;
     Np.buf := concat (repeat (Np.buf m) n) |}.


(** The spectral axis type the object's WCS records: [ctype[spec]]. *)
Definition recorded_ctype (w : WCS) : option string :=
  Py.index (ctype w) (spec w).

(** None of the three recognised conventions occurs in [t]. *)
Definition unrecognised (t : string) : Prop :=
  Py.contains "VRAD" t = false /\
  Py.contains "VOPT" t = false /\
  Py.contains "FREQ" t = false.

(** ** An astropy to run the module on *)

Fixpoint header_get (key : string) (h : Header) : string :=
  match h with
  | [] => EmptyString
  | (k, x) :: h' => if String.eqb k key then x else header_get key h'
  end.

(** A table extension and an image extension. *)
Definition example_cube : Np.ndarray :=
  {| Np.dtype_of := Np.float64;
     Np.shape := [3; 1; 2];
     Np.buf := [Np.Fin 1; Np.Fin 2; Np.NaN; Np.Fin 4; Np.Fin 5; Np.Fin 6] |}.

Definition example_header (ctype3 cdelt3 : string) : Header :=
  [("CTYPE1", "RA---SIN"); ("CTYPE2", "DEC--SIN"); ("CTYPE3", ctype3);
   ("CUNIT1", "deg"); ("CUNIT2", "deg"); ("CUNIT3", "km/s");
   ("CDELT3", cdelt3)]%string.

Definition example_table : HDU :=
  {| is_image := false;
     hdu_data := {| Np.dtype_of := Np.int16; Np.shape := [0]; Np.buf := [] |};
     hdu_header := [] |}.

(** A stand-in for astropy: the WCS reads the axis types and units of the
    header, the spectral axis is the third one, it runs 10, 20, 30, ... or,
    with a negative step, 30, 20, 10, ...; unit conversion keeps the
    numbers.  The file "table.fits" holds a table only. *)
Definition example_astropy : Astropy :=
  {| fits_open := fun path =>
       if String.eqb path "table.fits" then Ok [example_table]
       else Raise (IOError "No such file or directory");
     WCS_of_header := fun h =>
       {| wcs_source := h;
          spec := 2;
          ctype := [header_get "CTYPE1" h; header_get "CTYPE2" h;
                    header_get "CTYPE3" h];
          cunit := [header_get "CUNIT1" h; header_get "CUNIT2" h;
                    header_get "CUNIT3" h];
          restfrq := 1420405752 |};
     wcs_sub := fun w _ => w;
     wcs_pix2world := fun w channels =>
       map (fun i =>
              if String.eqb (header_get "CDELT3" (wcs_source w)) "-10"
              then (30 - 10 * inject_Z (Z.of_nat i))%Q
              else (10 + 10 * inject_Z (Z.of_nat i))%Q)
           channels;
     Unit_of_string := fun s =>
       Ok (if String.eqb s "km/s" then km_per_s
           else if String.eqb s "Hz" then Hz
           else if String.eqb s EmptyString then dimensionless_unscaled
           else other_unit s);
     Quantity_to := fun q u _ => Ok {| value := value q; unit := u |} |}.

(** The object built from the example cube and a header. *)
Definition example_object (ctype3 cdelt3 : string) : Datacube :=
  match EBHISDatacube__init__ example_astropy None (Some example_cube)
          (Some (example_header ctype3 cdelt3)) None with
  | Ok self => self
  | Raise _ => class_defaults
  end.

(** The same from the base class, which leaves the header as it is. *)
Definition example_base_object (ctype3 cdelt3 : string) : Datacube :=
  match __init__ example_astropy None (Some example_cube)
          (Some (example_header ctype3 cdelt3)) None with
  | Ok self => self
  | Raise _ => class_defaults
  end.

Definition plain (l : list Q) : Quantity :=
  {| value := l; unit := dimensionless_unscaled |}.

(** The object after the [data] property has normalised the element type
    of the loaded extension [h]. *)
Definition normalized (s : Datacube) (h : HDU) : Datacube :=
  set_hdu (Some (set_hdu_data h (Np.astype (hdu_data h) (_dtype s)))) s.

(** An invariant of the object that a method keeps. *)
Definition preserves {A} (P : Datacube -> Prop) (m : M A) : Prop :=
  forall s, P s -> P (snd (m s)).

(** The object has no attribute [velocities]. *)
Definition no_velocities (s : Datacube) : Prop := velocities s = None.

(** ** Shapes and views up to what an index can read *)

(** The reversed shape [x] broadcasts into the reversed shape [t]: axis
    by axis from the last, [x] has the length of [t] or the length one. *)
Fixpoint fits (x t : list nat) : Prop :=
  match x, t with
  | [], _ => True
  | a :: x', b :: t' => (a = b \/ a = 1) /\ fits x' t'
  | _ :: _, [] => False
  end.

(** Two views of one shape with the same element at every index. *)
Definition veq (v w : Np.view) : Prop :=
  Np.vshape v = Np.vshape w /\
  forall idx, in_range idx (Np.vshape v) -> Np.vitem v idx = Np.vitem w idx.

(** Two outcomes: the same exception, or views with the same elements. *)
Definition req (r r' : result Np.view) : Prop :=
  match r, r' with
  | Ok v, Ok w => veq v w
  | Raise e, Raise e' => e = e'
  | _, _ => False
  end.

(** A mask of the shape of a plane of the example cube. *)
Definition example_mask : Np.ndarray :=
  {| Np.dtype_of := Np.float64;
     Np.shape := [1; 2];
     Np.buf := [Np.Fin 1; Np.Fin 0] |}.

(** The example astropy with a file "cube.fits" that holds a table
    followed by two images. *)
Definition example_archive : Astropy :=
  {| fits_open := fun path =>
       if String.eqb path "cube.fits"
       then Ok [example_table;
                ImageHDU example_cube (example_header "VRAD" "10");
                ImageHDU example_cube (example_header "FREQ" "10")]
       else fits_open example_astropy path;
     WCS_of_header := WCS_of_header example_astropy;
     wcs_sub := wcs_sub example_astropy;
     wcs_pix2world := wcs_pix2world example_astropy;
     Unit_of_string := Unit_of_string example_astropy;
     Quantity_to := Quantity_to example_astropy |}.



(** Lines 109-117: the equivalency the spectral axis type selects, the
    first of VRAD, VOPT and FREQ that occurs in it; none when none
    occurs. *)
Definition equivalency_of (w : WCS) (t : string) : option equivalency :=
  if Py.contains "VRAD" t then Some (doppler_radio (restfrq w))
  else if Py.contains "VOPT" t then Some (doppler_optical (restfrq w))
  else if Py.contains "FREQ" t then Some no_equivalency
  else None.

(** What no method is meant to touch: the configured element type, the
    attribute [velocities], and of the loaded extension its header, its
    image flag and the shape of its array. *)
Definition same_cube (s0 s : Datacube) : Prop :=
  _dtype s = _dtype s0 /\
  velocities s = velocities s0 /\
  option_map hdu_header (_hdu s) = option_map hdu_header (_hdu s0) /\
  option_map is_image (_hdu s) = option_map is_image (_hdu s0) /\
  option_map (fun h => Np.shape (hdu_data h)) (_hdu s)
  = option_map (fun h => Np.shape (hdu_data h)) (_hdu s0).

(** [self.velocities = v], as a caller or a further subclass may do. *)
Definition set_velocities (x : option Quantity) (s : Datacube) : Datacube :=
  {| _wcs := _wcs s; _hdu := _hdu s; _dtype := _dtype s;
     _axis_units := _axis_units s; _frequencies := _frequencies s;
     _radio_velocities := _radio_velocities s;
     _optical_velocities := _optical_velocities s;
     velocities := x |}.

(** The example object given the velocities 10, 20, 30 km/s. *)
Definition example_with_velocities : Datacube :=
  set_velocities (Some {| value := [10; 20; 30]%Q; unit := km_per_s |})
    (example_object "VRAD" "10").

(** A cube whose first pixel has flux in the second channel only. *)
Definition example_line_cube : Np.ndarray :=
  {| Np.dtype_of := Np.float32;
     Np.shape := [3; 1; 2];
     Np.buf := [Np.Fin 0; Np.Fin 2; Np.Fin 7; Np.Fin 4; Np.NaN; Np.Fin 6] |}.

Definition example_line_object : Datacube :=
  set_velocities (Some {| value := [10; 20; 30]%Q; unit := km_per_s |})
    (match EBHISDatacube__init__ example_astropy None (Some example_line_cube)
             (Some (example_header "VRAD" "10")) None with
     | Ok self => self
     | Raise _ => class_defaults
     end).

(** A header whose third axis is a wavelength in metres, the object the
    base class builds from the example cube and it, and the same from an
    image of two axes only. *)
Definition example_wave_header : Header :=
  [("CTYPE1", "RA---SIN"); ("CTYPE2", "DEC--SIN"); ("CTYPE3", "WAVE");
   ("CUNIT1", "deg"); ("CUNIT2", "deg"); ("CUNIT3", "m");
   ("CDELT3", "10")]%string.

Definition example_wave_object : Datacube :=
  match __init__ example_astropy None (Some example_cube)
          (Some example_wave_header) None with
  | Ok self => self
  | Raise _ => class_defaults
  end.

Definition example_image : Np.ndarray :=
  {| Np.dtype_of := Np.float32;
     Np.shape := [1; 2];
     Np.buf := [Np.Fin 1; Np.Fin 2] |}.

Definition example_image_object : Datacube :=
  match __init__ example_astropy None (Some example_image)
          (Some example_wave_header) None with
  | Ok self => self
  | Raise _ => class_defaults
  end.

(** The same element value, whatever fraction represents a number. *)
Definition same_value (x y : Np.fval) : Prop :=
  match x, y with
  | Np.Fin a, Np.Fin b => (a == b)%Q
  | Np.PInf, Np.PInf | Np.NInf, Np.NInf | Np.NaN, Np.NaN => True
  | _, _ => False
  end.

(* ================================================================= *)
(** * Running methods *)

Lemma bind_ok A B (m : M A) (k : A -> M B) s a s' :
  m s = (Ok a, s') -> bind m k s = k a s'.
Proof. intros H. unfold bind. now rewrite H. Qed.

Lemma bind_raise A B (m : M A) (k : A -> M B) s e s' :
  m s = (Raise e, s') -> bind m k s = (Raise e, s').
Proof. intros H. unfold bind. now rewrite H. Qed.

Lemma bind_inv_ok A B (m : M A) (k : A -> M B) s b :
  fst (bind m k s) = Ok b ->
  exists a s', m s = (Ok a, s') /\ fst (k a s') = Ok b.
Proof.
  unfold bind. destruct (m s) as [[a|e] s'] eqn:E; simpl; intros H.
  - now exists a, s'.
  - discriminate.
Qed.

Lemma preserves_bind A B P (m : M A) (k : A -> M B) :
  preserves P m -> (forall a, preserves P (k a)) -> preserves P (bind m k).
Proof.
  intros Hm Hk s Hs. unfold bind.
  specialize (Hm s Hs). destruct (m s) as [[a|e] s']; simpl in *.
  - now apply Hk.
  - assumption.
Qed.

Lemma preserves_ret A P (a : A) : preserves P (ret a).
Proof. now intros s Hs. Qed.

Lemma preserves_raise A P e : preserves P (@raise A e).
Proof. now intros s Hs. Qed.

Lemma preserves_lift A P (r : result A) : preserves P (lift r).
Proof. now intros s Hs. Qed.

Lemma preserves_get_attr A P (f : Datacube -> A) : preserves P (get_attr f).
Proof. now intros s Hs. Qed.

Lemma preserves_of_option A P (o : option A) e : preserves P (of_option o e).
Proof. destruct o; [apply preserves_ret | apply preserves_raise]. Qed.

Lemma preserves_modify P f :
  (forall s, P s -> P (f s)) -> preserves P (modify f).
Proof. intros H s Hs. now apply H. Qed.

Ltac pres :=
  repeat first
    [ progress intros
    | apply preserves_bind
    | apply preserves_ret | apply preserves_raise | apply preserves_lift
    | apply preserves_get_attr | apply preserves_of_option
    | apply preserves_modify; intros [] ?; assumption
    | match goal with
      | |- preserves _ (match ?x with _ => _ end) => destruct x
      | |- preserves _ (if ?x then _ else _) => destruct x
      | |- preserves _ (let '(_, _) := ?x in _) => destruct x
      end ].

(** ** The [data] property *)

Lemma dtype_eqb_eq a b : Np.dtype_eqb a b = true <-> a = b.
Proof. destruct a, b; simpl; split; intros H; try reflexivity; discriminate. Qed.

Lemma dtype_eqb_refl a : Np.dtype_eqb a a = true.
Proof. now apply dtype_eqb_eq. Qed.

Lemma data_run s h :
  _hdu s = Some h ->
  data s = (Ok (Np.astype (hdu_data h) (_dtype s)), normalized s h).
Proof.
  intros H. unfold data, normalized. rewrite H.
  destruct (Np.dtype_eqb _ _) eqn:E; [|reflexivity].
  apply dtype_eqb_eq in E.
  destruct s as [w hd t au f rv ov v]; simpl in *. subst hd.
  destruct h as [im [dt sh b] hdr]; simpl in *. subst t.
  reflexivity.
Qed.

Lemma data_normalized s h :
  data (normalized s h)
  = (Ok (Np.astype (hdu_data h) (_dtype s)), normalized s h).
Proof.
  unfold data, normalized; simpl. now rewrite dtype_eqb_refl.
Qed.

Lemma data_unloaded s :
  _hdu s = None -> data s = (Raise (no_attribute "NoneType" "data"), s).
Proof. intros H. unfold data. now rewrite H. Qed.

Lemma preserves_data P :
  (forall s h, P s -> _hdu s = Some h -> P (normalized s h)) ->
  preserves P data.
Proof.
  intros H s Hs. destruct (_hdu s) as [h|] eqn:E.
  - rewrite (data_run s h E). simpl. now apply H.
  - now rewrite (data_unloaded s E).
Qed.

Lemma normalized_hdu s h :
  _hdu (normalized s h)
  = Some (set_hdu_data h (Np.astype (hdu_data h) (_dtype s))).
Proof. reflexivity. Qed.

(** ** Pieces of [moment] *)

Lemma getslice_ok v sl n sh :
  Np.vshape v = n :: sh ->
  exists v', Np.getslice v sl = Ok v' /\
             Np.vshape v' = snd (Py.slice_indices sl n) :: sh.
Proof.
  intros H. unfold Np.getslice. rewrite H.
  destruct (Py.slice_indices sl n) as [lo k]. eexists. split; reflexivity.
Qed.

Lemma moment_slice_ok cslice :
  cslice <> [] -> exists sl, moment_slice cslice = Ok sl.
Proof.
  intros H. destruct cslice as [|c [|c' r]]; [congruence| |];
    unfold moment_slice; simpl; eexists; reflexivity.
Qed.

Lemma moment_mask_run mask sl s h :
  _hdu s = Some h -> Np.shape (hdu_data h) <> [] ->
  exists mv s',
    moment_mask mask sl s = (Ok mv, s') /\
    data s' = (Ok (Np.astype (hdu_data h) (_dtype s)), normalized s h).
Proof.
  intros H Hsh. destruct mask as [m|]; simpl.
  - unfold bind. rewrite (data_run s h H).
    destruct (Np.shape_eqb _ _).
    + do 2 eexists. split; [reflexivity|]. apply data_normalized.
    + rewrite data_normalized.
      destruct (Np.shape_eqb (Np.shape m) _) eqn:E.
      * unfold Np.shape_eqb in E. destruct (list_eq_dec _ _ _) as [E'|]; [|discriminate].
        simpl in E'.
        destruct (Np.shape (hdu_data h)) as [|n sh] eqn:Es; [congruence|].
        destruct (getslice_ok (Np.of_array m) sl n sh) as (v' & Hv & _);
          [exact E'|].
        unfold lift. rewrite Hv.
        do 2 eexists. split; [reflexivity|]. apply data_normalized.
      * do 2 eexists. split; [reflexivity|]. apply data_normalized.
  - do 2 eexists. split; [reflexivity|]. now apply data_run.
Qed.

(** The part of [moment] that follows the mask, on a loaded cube: the
    data are sliced and the kind decides. *)
Lemma moment_channel_range astropy s h cslice kind mask :
  _hdu s = Some h -> Np.shape (hdu_data h) <> [] -> cslice <> [] ->
  exists sl mv s_data,
    moment_slice cslice = Ok sl /\
    Np.getslice (Np.of_array (Np.astype (hdu_data h) (_dtype s))) sl
    = Ok s_data /\
    fst (moment_mask mask sl s) = Ok mv /\
    moment astropy None (Some cslice) kind mask s =
    (if (kind =? 0)%Z then
       bind (lift (Np.multiply s_data mv)) (fun p =>
       bind (lift (Np.nansum0 p)) (fun r =>
       ret (Some (Np.materialize r))))
     else if (kind =? 1)%Z then
       bind get_velocities (fun v =>
       bind (lift (Np.getslice (view_of_values (value v)) sl)) (fun sv =>
       bind (lift (Np.multiply s_data (Np.column sv))) (fun p =>
       bind (lift (Np.multiply p mv)) (fun p' =>
       bind (lift (Np.nansum0 p')) (fun m =>
       bind (lift (Np.multiply s_data mv)) (fun q =>
       bind (lift (Np.nansum0 q)) (fun den =>
       bind (lift (idivide m den)) (fun m' =>
       ret (Some (Np.materialize m'))))))))))
     else ret None) (normalized s h).
Proof.
  intros H Hsh Hc.
  destruct (moment_slice_ok cslice Hc) as (sl & Hsl).
  destruct (moment_mask_run mask sl s h H Hsh) as (mv & s' & Hm & Hd).
  destruct (Np.shape (hdu_data h)) as [|n sh] eqn:Es; [congruence|].
  destruct (getslice_ok (Np.of_array (Np.astype (hdu_data h) (_dtype s)))
              sl n sh) as (s_data & Hg & _); [exact Es|].
  exists sl, mv, s_data. repeat split; try assumption.
  - now rewrite Hm.
  - unfold moment, moment_range.
    rewrite (bind_ok _ _ (ret (Some cslice)) _ s (Some cslice) s eq_refl).
    rewrite Hsl.
    rewrite (bind_ok _ _ (lift (Ok sl)) _ s sl s eq_refl).
    rewrite (bind_ok _ _ _ _ s mv s' Hm).
    rewrite (bind_ok _ _ _ _ s' _ _ Hd).
    rewrite Hg.
    rewrite (bind_ok _ _ (lift (Ok s_data)) _ _ s_data _ eq_refl).
    reflexivity.
Qed.

(* ================================================================= *)
(** * Claims about the error behaviour of [moment] *)

(** C9.  With neither a velocity range nor a channel range, [moment]
    returns [None] for every kind and every mask; nothing is raised and
    the object is left as it was. *)
Theorem moment_without_range astropy kind mask s :
  moment astropy None None kind mask s = (Ok None, s).
Proof. reflexivity. Qed.

(** C6, as stated, fails: with the channel range (0, 3) and kind 2 the
    call on the example cube returns [None] and raises nothing. *)
Lemma moment_other_kind_counterexample :
  fst (moment example_astropy None (Some [0; 3]%Q) 2 None
         (example_object "VRAD" "10")) = Ok None /\
  forall e,
    fst (moment example_astropy None (Some [0; 3]%Q) 2 None
           (example_object "VRAD" "10")) <> Raise e.
Proof. split; [reflexivity | intros e H; vm_compute in H; discriminate]. Qed.

(** C6, amended.  For every kind other than 0 and 1, [moment] on a loaded
    cube with a channel range returns [None]: no exception is raised. *)
Theorem moment_other_kind astropy s h cslice kind mask :
  _hdu s = Some h -> Np.shape (hdu_data h) <> [] -> cslice <> [] ->
  kind <> 0%Z -> kind <> 1%Z ->
  fst (moment astropy None (Some cslice) kind mask s) = Ok None.
Proof.
  intros H Hsh Hc H0 H1.
  destruct (moment_channel_range astropy s h cslice kind mask H Hsh Hc)
    as (sl & mv & s_data & _ & _ & _ & ->).
  apply Z.eqb_neq in H0, H1. now rewrite H0, H1.
Qed.

Lemma moment_other_kind_witness :
  fst (moment example_astropy None (Some [0; 3]%Q) 7 None
         (example_object "VRAD" "10")) = Ok None.
Proof.
  apply (moment_other_kind example_astropy (example_object "VRAD" "10")
           (ImageHDU example_cube
              (header_set "SPECSYS" "LSRK"
                 (header_set "CTYPE3" "VRAD"
                    (header_set "CUNIT3" "m/s" (example_header "VRAD" "10")))))
           [0; 3]%Q 7 None).
  - reflexivity.
  - discriminate.
  - discriminate.
  - discriminate.
  - discriminate.
Defined.

(** A loaded cube without the attribute [velocities]: the first moment
    stops at the attribute lookup. *)
Lemma moment_kind1_run astropy s h cslice mask :
  no_velocities s ->
  _hdu s = Some h -> Np.shape (hdu_data h) <> [] -> cslice <> [] ->
  moment astropy None (Some cslice) 1 mask s
  = (Raise (no_attribute "EBHISDatacube" "velocities"), normalized s h).
Proof.
  intros Hv H Hsh Hc.
  destruct (moment_channel_range astropy s h cslice 1 mask H Hsh Hc)
    as (sl & mv & s_data & _ & _ & _ & ->).
  simpl. unfold bind, get_velocities, bind, get_attr. simpl.
  unfold no_velocities in Hv. now rewrite Hv.
Qed.

(** C3, on the code: no class of the module defines the attribute
    [velocities] that the first moment reads, so on every loaded cube, for
    every channel range and every mask, [moment] with kind 1 raises an
    attribute error instead of returning the weighted mean. *)
Theorem moment_kind1_raises astropy s h cslice mask :
  no_velocities s ->
  _hdu s = Some h -> Np.shape (hdu_data h) <> [] -> cslice <> [] ->
  fst (moment astropy None (Some cslice) 1 mask s)
  = Raise (no_attribute "EBHISDatacube" "velocities").
Proof.
  intros Hv H Hsh Hc.
  now rewrite (moment_kind1_run astropy s h cslice mask Hv H Hsh Hc).
Qed.

Lemma moment_kind1_raises_witness :
  fst (moment example_astropy None (Some [0; 3]%Q) 1 None
         (example_object "VRAD" "10"))
  = Raise (AttributeError "'EBHISDatacube' object has no attribute 'velocities'").
Proof.
  apply (moment_kind1_raises example_astropy (example_object "VRAD" "10")
           (ImageHDU example_cube
              (header_set "SPECSYS" "LSRK"
                 (header_set "CTYPE3" "VRAD"
                    (header_set "CUNIT3" "m/s" (example_header "VRAD" "10")))))
           [0; 3]%Q None).
  - reflexivity.
  - reflexivity.
  - discriminate.
  - discriminate.
Defined.

(** Every object the constructors of the module build lacks the
    attribute. *)
Lemma init_no_velocities astropy path data0 header0 dtype self :
  __init__ astropy path data0 header0 dtype = Ok self -> no_velocities self.
Proof.
  unfold __init__, no_velocities. intros H.
  destruct path as [p|].
  - destruct (fits_open astropy p) as [hdus|e]; [|discriminate].
    destruct (find is_image hdus); injection H as <-; reflexivity.
  - destruct data0, header0; try discriminate. injection H as <-. reflexivity.
Qed.

Lemma EBHIS_init_no_velocities astropy path data0 header0 dtype self :
  EBHISDatacube__init__ astropy path data0 header0 dtype = Ok self ->
  no_velocities self.
Proof.
  unfold EBHISDatacube__init__. intros H.
  destruct (__init__ astropy path data0 header0 dtype) as [s0|e] eqn:E;
    [|discriminate].
  apply init_no_velocities in E.
  destruct (_hdu s0); [|discriminate]. injection H as <-. exact E.
Qed.

(* ================================================================= *)
(** * Construction and the raw accessors *)

(** C10, as stated, fails: built from a file that holds a table only, the
    object has no extension, and reading [hdu] does not fail; it returns
    [None]. *)
Lemma hdu_access_counterexample :
  fits_open example_astropy "table.fits" = Ok [example_table] /\
  is_image example_table = false /\
  exists self,
    __init__ example_astropy (Some "table.fits"%string) None None None = Ok self /\
    fst (hdu self) = Ok None /\
    forall e, fst (hdu self) <> Raise e.
Proof.
  split; [reflexivity|]. split; [reflexivity|].
  eexists. split; [reflexivity|]. split; [reflexivity|].
  intros e H. discriminate H.
Qed.

Lemma find_none_image hdus :
  (forall h, In h hdus -> is_image h = false) -> find is_image hdus = None.
Proof.
  induction hdus as [|h l IH]; intros H; [reflexivity|].
  simpl. rewrite (H h (or_introl eq_refl)). apply IH.
  intros h' Hin. apply H. now right.
Qed.

(** C10, amended.  Built from a path whose file has no extension flagged
    as an image, the object is constructed without an error and has no
    extension loaded; from then on [data] and [header] raise an attribute
    error and leave the object as it is, while [hdu] returns [None].  The
    configuration error is raised exactly when the path is absent and the
    array or the metadata is missing; with a path, what is raised is what
    opening the file raised. *)
Theorem init_without_image_extension astropy path hdus data0 header0 dtype :
  fits_open astropy path = Ok hdus ->
  (forall h, In h hdus -> is_image h = false) ->
  (exists self,
     __init__ astropy (Some path) data0 header0 dtype = Ok self /\
     _hdu self = None /\
     data self = (Raise (no_attribute "NoneType" "data"), self) /\
     header self = (Raise (no_attribute "NoneType" "header"), self) /\
     hdu self = (Ok None, self)) /\
  (forall d hd t,
     __init__ astropy None d hd t
     = Raise (AttributeError "Either path or data and header have to be set.")
     <-> d = None \/ hd = None) /\
  (forall p d hd t e,
     __init__ astropy (Some p) d hd t = Raise e ->
     fits_open astropy p = Raise e).
Proof.
  intros Hopen Himg. split; [|split].
  - unfold __init__. rewrite Hopen, (find_none_image hdus Himg).
    eexists. split; [reflexivity|]. repeat split.
  - intros d hd t. unfold __init__. destruct d, hd; split; intros H;
      try discriminate; try reflexivity; try (now left); try (now right).
    destruct H; discriminate.
  - intros p d hd t e. unfold __init__.
    destruct (fits_open astropy p) as [l|e']; [|congruence].
    destruct (find is_image l); discriminate.
Qed.

Lemma init_without_image_extension_witness :
  exists self,
    __init__ example_astropy (Some "table.fits"%string) None None None = Ok self /\
    _hdu self = None /\
    data self = (Raise (no_attribute "NoneType" "data"), self) /\
    header self = (Raise (no_attribute "NoneType" "header"), self) /\
    hdu self = (Ok None, self).
Proof.
  apply (init_without_image_extension example_astropy "table.fits"
           [example_table] None None None).
  - reflexivity.
  - intros h [<-|[]]. reflexivity.
Defined.

(* ================================================================= *)
(** * The frequency axis *)

Lemma set_wcs_same s x : _wcs s = x -> set_wcs x s = s.
Proof. destruct s; simpl; intros <-; reflexivity. Qed.

Lemma set_axis_units_same s x : _axis_units s = x -> set_axis_units x s = s.
Proof. destruct s; simpl; intros <-; reflexivity. Qed.

Lemma wcs_run astropy s w :
  fst (wcs astropy s) = Ok w -> wcs astropy s = (Ok w, set_wcs (Some w) s).
Proof.
  unfold wcs, bind, get_attr, header, modify, ret.
  destruct (_wcs s) as [w0|] eqn:E; simpl.
  - intros [= <-]. now rewrite (set_wcs_same s (Some w0) E).
  - destruct (_hdu s); simpl; intros [= <-]. reflexivity.
Qed.

Lemma wcs_cached astropy s w :
  _wcs s = Some w -> wcs astropy s = (Ok w, s).
Proof. intros H. unfold wcs, bind, get_attr. now rewrite H. Qed.

Lemma axis_units_cases astropy s w us :
  fst (wcs astropy s) = Ok w ->
  fst (axis_units astropy s) = Ok us ->
  _axis_units s = Some us \/
  _axis_units s = None /\
  traverse (Unit_of_string astropy) (cunit w) = Ok us.
Proof.
  intros Hw. unfold axis_units. unfold bind at 1. unfold get_attr.
  destruct (_axis_units s) as [us0|]; simpl.
  - intros [= <-]. now left.
  - right. split; [reflexivity|].
    rewrite (bind_ok _ _ _ _ s w _ (wcs_run astropy s w Hw)) in H.
    unfold bind, lift, modify, ret in H.
    destruct (traverse _ _); simpl in H; congruence.
Qed.

Lemma axis_units_run astropy s w us :
  _wcs s = Some w ->
  _axis_units s = Some us \/
  _axis_units s = None /\
  traverse (Unit_of_string astropy) (cunit w) = Ok us ->
  axis_units astropy s = (Ok us, set_axis_units (Some us) s).
Proof.
  intros Hw [H|[H Ht]]; unfold axis_units; unfold bind at 1;
    unfold get_attr; rewrite H.
  - simpl. unfold ret. now rewrite (set_axis_units_same s (Some us) H).
  - rewrite (bind_ok _ _ _ _ s w s (wcs_cached astropy s w Hw)).
    unfold bind, lift, modify, ret. now rewrite Ht.
Qed.

Lemma prefix_app t b : String.prefix t (t ++ b) = true.
Proof.
  induction t as [|c t IH]; simpl.
  - now destruct b.
  - destruct (ascii_dec c c); [assumption | congruence].
Qed.

Lemma contains_prefix t s : String.prefix t s = true -> Py.contains t s = true.
Proof. destruct s; simpl; intros ->; reflexivity. Qed.

Lemma contains_cons t c s :
  Py.contains t s = true -> Py.contains t (String c s) = true.
Proof.
  intros H.
  change (Py.contains t (String c s))
    with (if String.prefix t (String c s) then true else Py.contains t s).
  rewrite H. now destruct (String.prefix t (String c s)).
Qed.

Lemma contains_app a t b : Py.contains t (a ++ t ++ b) = true.
Proof.
  induction a as [|c a IH].
  - change (EmptyString ++ t ++ b)%string with (t ++ b)%string.
    apply contains_prefix, prefix_app.
  - change (String c a ++ t ++ b)%string with (String c (a ++ t ++ b)).
    apply contains_cons, IH.
Qed.

(** The run of [frequencies] on an unrecognised spectral axis type. *)
Lemma frequencies_unsupported_run astropy s h w n us u t :
  _frequencies s = None ->
  _hdu s = Some h ->
  fst (wcs astropy s) = Ok w ->
  Py.index (rev (Np.shape (hdu_data h))) (spec w) = Some n ->
  fst (axis_units astropy s) = Ok us ->
  Py.index us (spec w) = Some u ->
  recorded_ctype w = Some t ->
  unrecognised t ->
  frequencies astropy s =
  (Raise (AttributeError (unsupported_spectral_type t)),
   set_axis_units (Some us) (normalized (set_wcs (Some w) s) h)).
Proof.
  intros Hf Hh Hw Hn Hus Hu Ht (H1 & H2 & H3).
  assert (Hau := axis_units_cases astropy s w us Hw Hus).
  unfold frequencies. unfold bind at 1. unfold get_attr. rewrite Hf.
  rewrite (bind_ok _ _ _ _ s w _ (wcs_run astropy s w Hw)).
  set (s1 := set_wcs (Some w) s).
  rewrite (bind_ok _ _ _ _ s1 _ _ (data_run s1 h Hh)).
  unfold tuple_index at 1. simpl Np.shape. rewrite Hn. simpl of_option.
  rewrite (bind_ok _ _ (ret n) _ _ n _ eq_refl).
  set (s2 := normalized s1 h).
  unfold spec_wcs.
  rewrite (bind_ok _ _ (bind (wcs astropy) _) _ s2
             (wcs_sub astropy w ["spectral"%string]) s2).
  2:{ now rewrite (bind_ok _ _ _ _ s2 w s2 (wcs_cached astropy s2 w eq_refl)). }
  rewrite (bind_ok _ _ _ _ s2 us _
             (axis_units_run astropy s2 w us eq_refl Hau)).
  unfold list_index. rewrite Hu. unfold recorded_ctype in Ht. rewrite Ht.
  simpl of_option.
  unfold bind, ret, raise. rewrite H1, H2, H3. reflexivity.
Qed.

(** C5, as stated, fails: the length of the spectral axis and the unit of
    the axis are read before the axis type is looked at.  An image of two
    axes under a header whose third axis is of the type WAVE: the type is
    none of the three, and reading [frequencies] raises the index error
    of the missing array axis, not the error of the unsupported type. *)
Lemma frequencies_unsupported_type_counterexample :
  recorded_ctype (WCS_of_header example_astropy example_wave_header)
  = Some "WAVE"%string /\
  unrecognised "WAVE" /\
  fst (frequencies example_astropy example_image_object)
  = Raise (IndexError "tuple index out of range") /\
  forall msg,
    fst (frequencies example_astropy example_image_object)
    <> Raise (AttributeError msg).
Proof.
  split; [reflexivity|]. split; [repeat split|]. split; [reflexivity|].
  intros msg H. discriminate H.
Qed.

(** C5, amended.  On a loaded cube whose WCS has a spectral axis that is
    an axis of the array, with axis units that parse and a unit for that
    axis: when the spectral axis type the WCS records contains none of
    VRAD, VOPT and FREQ, reading [frequencies] raises the error
    "Unsupported spectral type ... in header." whose message contains the
    offending type; nothing is returned, the cache stays empty, and every
    later read raises the same error. *)
Theorem frequencies_unsupported_type astropy s h w n us u t :
  _frequencies s = None ->
  _hdu s = Some h ->
  fst (wcs astropy s) = Ok w ->
  Py.index (rev (Np.shape (hdu_data h))) (spec w) = Some n ->
  fst (axis_units astropy s) = Ok us ->
  Py.index us (spec w) = Some u ->
  recorded_ctype w = Some t ->
  unrecognised t ->
  let failure := Raise (AttributeError (unsupported_spectral_type t)) in
  let later := snd (frequencies astropy s) in
  fst (frequencies astropy s) = failure /\
  Py.contains t (unsupported_spectral_type t) = true /\
  _frequencies later = None /\
  frequencies astropy later = (failure, later).
Proof.
  intros Hf Hh Hw Hn Hus Hu Ht Hun failure later. subst failure later.
  rewrite (frequencies_unsupported_run astropy s h w n us u t
             Hf Hh Hw Hn Hus Hu Ht Hun).
  simpl fst; simpl snd. repeat split.
  - apply contains_app.
  - assumption.
  - set (s3 := set_axis_units _ _).
    rewrite (frequencies_unsupported_run astropy s3
               (set_hdu_data h (Np.astype (hdu_data h) (_dtype s)))
               w n us u t); try assumption; try reflexivity.
Qed.

Lemma frequencies_unsupported_type_witness :
  fst (frequencies example_astropy example_wave_object)
  = Raise (AttributeError "Unsupported spectral type WAVE in header.").
Proof.
  apply (frequencies_unsupported_type example_astropy example_wave_object
           (ImageHDU example_cube example_wave_header)
           (WCS_of_header example_astropy example_wave_header)
           3 [other_unit "deg"; other_unit "deg"; other_unit "m"]
           (other_unit "m") "WAVE").
  - reflexivity.
  - reflexivity.
  - reflexivity.
  - reflexivity.
  - reflexivity.
  - reflexivity.
  - reflexivity.
  - repeat split.
Defined.

(* ================================================================= *)
(** * Sorted search *)

Lemma bisect_left_step fuel a v lo hi :
  Np.bisect_left (S fuel) a v lo hi =
  if lo <? hi then
    if Qlt_le_dec (nth (lo + (hi - lo) / 2) a 0%Q) v
    then Np.bisect_left fuel a v (lo + (hi - lo) / 2 + 1) hi
    else Np.bisect_left fuel a v lo (lo + (hi - lo) / 2)
  else lo.
Proof. reflexivity. Qed.

Section Bisection.

Variable a : list Q.
Variable v : Q.
Hypothesis a_sorted : non_decreasing a.

Let below (r : nat) : Prop := forall j, j < r -> (nth j a 0 < v)%Q.
Let above (r : nat) : Prop :=
  forall j, r <= j < length a -> (v <= nth j a 0)%Q.

(** Bisection keeps what is known of both sides of the interval. *)
Lemma bisect_left_spec fuel lo hi :
  lo <= hi <= length a -> hi - lo <= fuel -> below lo -> above hi ->
  let r := Np.bisect_left fuel a v lo hi in
  lo <= r <= hi /\ below r /\ above r.
Proof.
  revert lo hi. induction fuel as [|fuel IH]; intros lo hi Hb Hf Hlo Hhi.
  - simpl. assert (lo = hi) by lia. subst. split; [lia|]. split; assumption.
  - cbv zeta. rewrite bisect_left_step. destruct (lo <? hi) eqn:E.
    + apply Nat.ltb_lt in E.
      assert (Hm : lo <= lo + (hi - lo) / 2 < hi).
      { split; [lia|]. assert ((hi - lo) / 2 < hi - lo)
          by (apply Nat.div_lt; lia). lia. }
      set (mid := lo + (hi - lo) / 2) in *.
      destruct (Qlt_le_dec (nth mid a 0%Q) v) as [Hlt|Hle].
      * destruct (IH (mid + 1) hi) as (H1 & H2 & H3); try lia; auto.
        { intros j Hj.
          apply Qle_lt_trans with (nth mid a 0%Q); [|assumption].
          apply a_sorted. lia. }
        split; [lia|]. split; assumption.
      * destruct (IH lo mid) as (H1 & H2 & H3); try lia; auto.
        { intros j Hj.
          apply Qle_trans with (nth mid a 0%Q); [assumption|].
          apply a_sorted. lia. }
        split; [lia|]. split; assumption.
    + apply Nat.ltb_ge in E. assert (lo = hi) by lia. subst.
      split; [lia|]. split; assumption.
Qed.

(** The insertion point: everything before it is below [v], nothing from
    it on is. *)
Lemma bisect_left_insertion_point :
  let r := Np.bisect_left (length a) a v 0 (length a) in
  r <= length a /\ below r /\ above r.
Proof.
  destruct (bisect_left_spec (length a) 0 (length a)) as (H1 & H2 & H3);
    try lia.
  - intros j Hj. lia.
  - intros j Hj. lia.
  - split; [lia|]. split; assumption.
Qed.

(** An index with the two properties is the insertion point. *)
Lemma insertion_point_unique r :
  r <= length a -> below r -> above r ->
  Np.bisect_left (length a) a v 0 (length a) = r.
Proof.
  intros Hr Hb Ha.
  destruct bisect_left_insertion_point as (H1 & H2 & H3).
  set (r' := Np.bisect_left _ _ _ _ _) in *.
  destruct (Nat.lt_trichotomy r' r) as [H|[H|H]]; [|assumption|].
  - exfalso. assert (A := Hb r' H). assert (B := H3 r' ltac:(lia)).
    apply (Qlt_irrefl v). eapply Qle_lt_trans; eassumption.
  - exfalso. assert (A := H2 r H). assert (B := Ha r ltac:(lia)).
    apply (Qlt_irrefl v). eapply Qle_lt_trans; eassumption.
Qed.

End Bisection.

(** ** Lists and Python indices *)

Lemma ascending_non_decreasing a : ascending a -> non_decreasing a.
Proof.
  intros H i j Hij. destruct (Nat.eq_dec i j) as [->|Hne].
  - apply Qle_refl.
  - apply Qlt_le_weak, H. lia.
Qed.

Lemma last_cons_nth (x : Q) l d d' :
  last (x :: l) d = nth (length l) (x :: l) d'.
Proof.
  revert x. induction l as [|y l IH]; intros x; [reflexivity|].
  change (last (x :: y :: l) d) with (last (y :: l) d).
  rewrite IH. reflexivity.
Qed.

Lemma index_nat {A} (l : list A) c d :
  c < length l -> Py.index l (Z.of_nat c) = Some (nth c l d).
Proof.
  intros H. unfold Py.index.
  destruct (0 <=? Z.of_nat c)%Z eqn:E; [|apply Z.leb_gt in E; lia].
  rewrite Nat2Z.id. now apply nth_error_nth'.
Qed.

Lemma index_length {A} (l : list A) c :
  length l <= c -> Py.index l (Z.of_nat c) = None.
Proof.
  intros H. unfold Py.index.
  destruct (0 <=? Z.of_nat c)%Z eqn:E; [|apply Z.leb_gt in E; lia].
  rewrite Nat2Z.id. now apply nth_error_None.
Qed.

Lemma index_first {A} (x : A) l : Py.index (x :: l) 0 = Some x.
Proof. reflexivity. Qed.

Lemma index_last (x : Q) l : Py.index (x :: l) (-1) = Some (last (x :: l) x).
Proof.
  unfold Py.index.
  change (0 <=? -1)%Z with false. cbv iota.
  destruct (0 <=? -1 + Z.of_nat (length (x :: l)))%Z eqn:E.
  - replace (Z.to_nat (-1 + Z.of_nat (length (x :: l)))) with (length l)
      by (simpl length; lia).
    rewrite (last_cons_nth x l x x).
    apply nth_error_nth'. simpl. lia.
  - apply Z.leb_gt in E. simpl length in E. lia.
Qed.

Lemma map_nth_seq (a : list Q) d :
  map (fun i => nth i a d) (seq 0 (length a)) = a.
Proof.
  apply nth_ext with (d := d) (d' := d).
  - now rewrite length_map, length_seq.
  - intros n Hn. rewrite length_map, length_seq in Hn.
    rewrite (nth_indep _ d (nth (length a) a d))
      by (now rewrite length_map, length_seq).
    rewrite (map_nth (fun i => nth i a d)).
    rewrite (nth_indep _ (length a) 0) by (now rewrite length_seq).
    now rewrite seq_nth.
Qed.

Lemma through_reversed a :
  Np.through a (Some (Np.arange_reversed (length a))) = rev a.
Proof.
  unfold Np.through, Np.arange_reversed.
  rewrite map_rev. now rewrite map_nth_seq.
Qed.

Lemma take_one a c :
  c < length a -> take a [Z.of_nat c] = Ok [nth c a 0%Q].
Proof.
  intros H. unfold take. simpl. now rewrite (index_nat a c 0%Q H).
Qed.

Lemma take_past_the_end a :
  exists msg, take a [Z.of_nat (length a)] = Raise (IndexError msg).
Proof.
  unfold take. simpl. rewrite (index_length a (length a)) by lia.
  eexists. reflexivity.
Qed.

(** ** The cached axis *)

Lemma radio_velocities_cached astropy s rv :
  _radio_velocities s = Some rv -> radio_velocities astropy s = (Ok rv, s).
Proof. intros H. unfold radio_velocities, bind, get_attr. now rewrite H. Qed.

Lemma radio_velocities_caches astropy s rv :
  fst (radio_velocities astropy s) = Ok rv ->
  _radio_velocities (snd (radio_velocities astropy s)) = Some rv.
Proof.
  unfold radio_velocities, bind, get_attr.
  destruct (_radio_velocities s) as [rv0|] eqn:E.
  - simpl. intros [= <-]. exact E.
  - destruct (wcs astropy s) as [[w|e] s1]; simpl; [|discriminate].
    destruct (frequencies astropy s1) as [[f|e] s2]; simpl; [|discriminate].
    unfold lift, modify, ret.
    destruct (Quantity_to astropy f km_per_s _) as [q|e]; simpl;
      [|discriminate].
    intros [= <-]. reflexivity.
Qed.

Lemma radio_velocities_run astropy s rv :
  fst (radio_velocities astropy s) = Ok rv ->
  exists s',
    s' = snd (radio_velocities astropy s) /\
    radio_velocities astropy s = (Ok rv, s') /\
    radio_velocities astropy s' = (Ok rv, s').
Proof.
  intros H. exists (snd (radio_velocities astropy s)).
  split; [reflexivity|]. split.
  - rewrite <- H. now destruct (radio_velocities astropy s).
  - apply radio_velocities_cached. now apply radio_velocities_caches.
Qed.

(** The lookup on the object is the lookup on its radio-velocity axis. *)
Lemma lookup_run astropy s rv velocities sv :
  fst (radio_velocities astropy s) = Ok rv ->
  value rv <> [] ->
  query_values astropy rv velocities = Ok sv ->
  radio_velocities_to_channels astropy velocities s
  = (lookup rv sv, snd (radio_velocities astropy s)).
Proof.
  intros Hrv Hne Hq.
  destruct (radio_velocities_run astropy s rv Hrv) as (s' & <- & Hs & Hs').
  assert (Hsv :
    bind (if negb (is_dimensionless_unscaled (unit velocities))
          then bind (radio_velocities astropy) (fun rv0 =>
               bind (lift (Quantity_to astropy velocities (unit rv0)
                             no_equivalency)) (fun q => ret (value q)))
          else ret (value velocities))
         (fun sv0 => radio_velocities astropy) s
    = (Ok rv, s') /\
    fst ((if negb (is_dimensionless_unscaled (unit velocities))
          then bind (radio_velocities astropy) (fun rv0 =>
               bind (lift (Quantity_to astropy velocities (unit rv0)
                             no_equivalency)) (fun q => ret (value q)))
          else ret (value velocities)) s) = Ok sv).
  { unfold query_values in Hq.
    destruct (negb (is_dimensionless_unscaled (unit velocities))).
    - unfold bind at 1 2 4. rewrite Hs. unfold bind, lift, ret.
      destruct (Quantity_to astropy velocities (unit rv) no_equivalency)
        as [q|e]; [|discriminate].
      injection Hq as <-. simpl. now rewrite Hs'.
    - injection Hq as <-. unfold bind, ret. now rewrite Hs. }
  destruct Hsv as (Hsv1 & Hsv2).
  unfold radio_velocities_to_channels.
  set (first_step := if negb _ then _ else _) in *.
  unfold bind at 1. unfold bind at 1 in Hsv1.
  destruct (first_step s) as [[sv0|e] s0]; simpl in Hsv2; [|discriminate].
  injection Hsv2 as ->.
  cbv beta. rewrite (bind_ok _ _ _ _ s0 rv s' Hsv1).
  destruct (value rv) as [|x l] eqn:Ev; [congruence|].
  unfold array_index. rewrite index_first. simpl of_option.
  rewrite (bind_ok _ _ (ret x) _ s' x s' eq_refl).
  rewrite (bind_ok _ _ _ _ s' rv s' Hs').
  rewrite Ev, index_last. simpl of_option.
  rewrite (bind_ok _ _ (ret (last (x :: l) x)) _ s' _ s' eq_refl).
  rewrite (bind_ok _ _ _ _ s' (sorter_of (x :: l)) s').
  2:{ unfold sorter_of, is_reversed.
      destruct (Qlt_le_dec (last (x :: l) x) x); [|reflexivity].
      rewrite (bind_ok _ _ _ _ s' rv s' Hs'). now rewrite Ev. }
  rewrite (bind_ok _ _ _ _ s' rv s' Hs').
  rewrite (bind_ok _ _ _ _ s' rv s' Hs').
  unfold lookup, channel_of. rewrite Ev.
  unfold bind, lift, ret.
  destruct (take (x :: l) _); reflexivity.
Qed.

(** ** The channel of a velocity on a sorted axis *)

Lemma is_reversed_non_decreasing a :
  non_decreasing a -> is_reversed a = false.
Proof.
  intros H. destruct a as [|x l]; [reflexivity|].
  unfold is_reversed. destruct (Qlt_le_dec _ _) as [Hlt|]; [|reflexivity].
  exfalso. rewrite (last_cons_nth x l x 0%Q) in Hlt.
  assert (A := H 0 (length l) ltac:(simpl; lia)).
  simpl nth at 1 in A. apply (Qlt_irrefl x).
  eapply Qle_lt_trans; eassumption.
Qed.

Lemma channel_of_non_decreasing a v :
  non_decreasing a ->
  channel_of a v = Np.bisect_left (length a) a v 0 (length a).
Proof.
  intros H. unfold channel_of, sorter_of.
  now rewrite (is_reversed_non_decreasing a H).
Qed.

Lemma channel_at_or_below_first a v :
  non_decreasing a -> (v <= nth 0 a 0)%Q -> channel_of a v = 0.
Proof.
  intros H Hv. rewrite (channel_of_non_decreasing a v H).
  apply (insertion_point_unique a v H 0); [lia| |].
  - intros j Hj. lia.
  - intros j Hj. apply Qle_trans with (nth 0 a 0%Q); [assumption|].
    apply H. lia.
Qed.

Lemma channel_of_stored_value a v k :
  ascending a -> k < length a -> (v == nth k a 0)%Q -> channel_of a v = k.
Proof.
  intros H Hk Hv.
  assert (Hnd := ascending_non_decreasing a H).
  rewrite (channel_of_non_decreasing a v Hnd).
  apply (insertion_point_unique a v Hnd k); [lia| |].
  - intros j Hj. rewrite Hv. apply H. lia.
  - intros j Hj. rewrite Hv. apply Hnd. lia.
Qed.

Lemma channel_above_last a v :
  non_decreasing a -> (nth (length a - 1) a 0 < v)%Q ->
  channel_of a v = length a.
Proof.
  intros H Hv. rewrite (channel_of_non_decreasing a v H).
  apply (insertion_point_unique a v H (length a)); [lia| |].
  - intros j Hj. apply Qle_lt_trans with (nth (length a - 1) a 0%Q);
      [|assumption].
    apply H. lia.
  - intros j Hj. lia.
Qed.

(** What the channel holds on a non-decreasing axis: the first stored
    velocity that is not below the one searched for. *)
Lemma channel_of_bounds a v :
  non_decreasing a ->
  let c := channel_of a v in
  c <= length a /\
  (forall j, j < c -> (nth j a 0 < v)%Q) /\
  (forall j, c <= j < length a -> (v <= nth j a 0)%Q).
Proof.
  intros H. cbv zeta. rewrite (channel_of_non_decreasing a v H).
  exact (bisect_left_insertion_point a v H).
Qed.

Lemma channel_of_monotone a v v' :
  non_decreasing a -> (v <= v')%Q -> channel_of a v <= channel_of a v'.
Proof.
  intros H Hv.
  destruct (channel_of_bounds a v H) as (H1 & H2 & H3).
  destruct (channel_of_bounds a v' H) as (H1' & H2' & H3').
  destruct (le_lt_dec (channel_of a v) (channel_of a v')) as [|Hlt];
    [assumption|exfalso].
  assert (A := H2 _ Hlt). assert (B := H3' (channel_of a v') ltac:(lia)).
  apply (Qlt_irrefl v). eapply Qle_lt_trans; [|eassumption].
  eapply Qle_trans; eassumption.
Qed.

Lemma channel_of_in_range a v :
  non_decreasing a -> a <> [] -> (v <= nth (length a - 1) a 0)%Q ->
  channel_of a v < length a.
Proof.
  intros H Hne Hv.
  destruct (channel_of_bounds a v H) as (H1 & H2 & H3).
  destruct (Nat.eq_dec (channel_of a v) (length a)) as [E|]; [exfalso|lia].
  assert (0 < length a) by (destruct a; [congruence|simpl; lia]).
  assert (A := H2 (length a - 1) ltac:(lia)).
  apply (Qlt_irrefl v). eapply Qle_lt_trans; eassumption.
Qed.

(** ** A decreasing axis *)

Lemma descending_rev_ascending a : descending a -> ascending (rev a).
Proof.
  intros H i j Hij. rewrite length_rev in Hij.
  rewrite !rev_nth by lia. apply H. lia.
Qed.

Lemma is_reversed_descending a :
  descending a -> 2 <= length a -> is_reversed a = true.
Proof.
  intros H Hn. destruct a as [|x l]; [simpl in Hn; lia|].
  unfold is_reversed. destruct (Qlt_le_dec _ _) as [|Hle]; [reflexivity|].
  exfalso. rewrite (last_cons_nth x l x 0%Q) in Hle.
  assert (A := H 0 (length l) ltac:(simpl in *; lia)).
  simpl nth at 2 in A. apply (Qlt_irrefl x).
  eapply Qle_lt_trans; eassumption.
Qed.

(** On a decreasing axis the search runs on the reversed axis and its
    insertion point is returned as it is: the velocity stored at channel
    [k] is reported at channel [N - 1 - k]. *)
Lemma channel_of_on_descending_axis a v k :
  descending a -> k < length a -> (v == nth k a 0)%Q ->
  channel_of a v = length a - 1 - k.
Proof.
  intros H Hk Hv.
  destruct (le_lt_dec 2 (length a)) as [Hn|Hn].
  - unfold channel_of, sorter_of. rewrite (is_reversed_descending a H Hn).
    unfold Np.searchsorted. rewrite through_reversed.
    assert (Ha := descending_rev_ascending a H).
    assert (Hc := channel_of_stored_value (rev a) v (length a - 1 - k) Ha).
    rewrite length_rev in Hc. rewrite rev_nth in Hc by lia.
    replace (length a - S (length a - 1 - k)) with k in Hc by lia.
    specialize (Hc ltac:(lia) Hv).
    rewrite (channel_of_non_decreasing (rev a) v
               (ascending_non_decreasing _ Ha)) in Hc.
    now rewrite length_rev in *.
  - assert (k = 0) by lia. subst k.
    assert (Ha : ascending a) by (intros i j Hij; lia).
    rewrite (channel_of_stored_value a v 0 Ha Hk Hv). lia.
Qed.

Lemma take_two a c c' :
  c < length a -> c' < length a ->
  take a [Z.of_nat c; Z.of_nat c'] = Ok [nth c a 0%Q; nth c' a 0%Q].
Proof.
  intros H H'. unfold take. simpl.
  now rewrite (index_nat a c 0%Q H), (index_nat a c' 0%Q H').
Qed.

Lemma nonempty_length (a : list Q) : a <> [] -> 0 < length a.
Proof. destruct a; [congruence|simpl; lia]. Qed.

(* ================================================================= *)
(** * Claims about the channel lookup *)

(** C2, as stated, fails: on the axis 10, 20, 30 km/s a query of 31 km/s,
    above the last value, does not return the last channel; the lookup
    raises an index error. *)
Lemma lookup_above_last_counterexample :
  fst (radio_velocities example_astropy (example_object "VRAD" "10"))
  = Ok {| value := [10; 20; 30]%Q; unit := km_per_s |} /\
  fst (radio_velocities_to_channels example_astropy (plain [31%Q])
         (example_object "VRAD" "10"))
  = Raise (IndexError "index out of bounds for axis 0") /\
  fst (radio_velocities_to_channels example_astropy (plain [31%Q])
         (example_object "VRAD" "10"))
  <> Ok ([2%Z], {| value := [30%Q]; unit := km_per_s |}).
Proof.
  split; [reflexivity|]. split; [reflexivity|].
  intros H. vm_compute in H. discriminate H.
Qed.

(** C2, amended.  On a strictly ascending radio-velocity axis of length N
    the lookup returns channel 0 for a query at or below the first value,
    channel k for a query equal to the value stored at channel k (so
    N - 1 for the last value), each time with the velocity stored at the
    channel returned; for a query above the last value the insertion
    point is N, no channel, and the lookup raises an index error. *)
Theorem lookup_on_ascending_axis astropy s rv velocities v :
  fst (radio_velocities astropy s) = Ok rv ->
  ascending (value rv) -> value rv <> [] ->
  query_values astropy rv velocities = Ok [v] ->
  let N := length (value rv) in
  let found := fst (radio_velocities_to_channels astropy velocities s) in
  let answer c :=
    Ok ([Z.of_nat c],
        {| value := [nth c (value rv) 0%Q]; unit := unit rv |}) in
  ((v <= nth 0 (value rv) 0)%Q -> found = answer 0) /\
  (forall k, k < N -> (v == nth k (value rv) 0)%Q -> found = answer k) /\
  ((nth (N - 1) (value rv) 0 < v)%Q ->
   exists msg, found = Raise (IndexError msg)).
Proof.
  intros Hrv Hasc Hne Hq N found answer. subst N found answer.
  rewrite (lookup_run astropy s rv velocities [v] Hrv Hne Hq). simpl fst.
  assert (Hnd := ascending_non_decreasing _ Hasc).
  assert (Hlen := nonempty_length _ Hne).
  unfold lookup. simpl map. split; [|split].
  - intros Hv. rewrite (channel_at_or_below_first _ v Hnd Hv).
    now rewrite (take_one (value rv) 0 Hlen).
  - intros k Hk Hv. rewrite (channel_of_stored_value _ v k Hasc Hk Hv).
    now rewrite (take_one (value rv) k Hk).
  - intros Hv. rewrite (channel_above_last _ v Hnd Hv).
    destruct (take_past_the_end (value rv)) as (msg & ->).
    now exists msg.
Qed.

Lemma lookup_on_ascending_axis_witness :
  fst (radio_velocities_to_channels example_astropy (plain [20%Q])
         (example_object "VRAD" "10"))
  = Ok ([1%Z], {| value := [20%Q]; unit := km_per_s |}).
Proof.
  refine (proj1 (proj2
    (lookup_on_ascending_axis example_astropy (example_object "VRAD" "10")
       {| value := [10; 20; 30]%Q; unit := km_per_s |} (plain [20%Q]) 20%Q
       _ _ _ _)) 1 _ _).
  - reflexivity.
  - intros i j Hij. simpl in Hij.
    destruct i as [|[|[|i]]]; destruct j as [|[|[|j]]];
      try lia; reflexivity.
  - discriminate.
  - reflexivity.
  - simpl. lia.
  - reflexivity.
Defined.

(** X10.  What the lookup does on a strictly decreasing axis, for a query equal
    to the value stored at channel [k]: it reports channel [N - 1 - k] and
    the velocity stored there. *)
Lemma lookup_on_descending_axis astropy s rv velocities v k :
  fst (radio_velocities astropy s) = Ok rv ->
  descending (value rv) -> k < length (value rv) ->
  query_values astropy rv velocities = Ok [v] ->
  (v == nth k (value rv) 0)%Q ->
  fst (radio_velocities_to_channels astropy velocities s)
  = Ok ([Z.of_nat (length (value rv) - 1 - k)],
        {| value := [nth (length (value rv) - 1 - k) (value rv) 0%Q];
           unit := unit rv |}).
Proof.
  intros Hrv Hd Hk Hq Hv.
  assert (Hne : value rv <> []) by (destruct (value rv); simpl in Hk; [lia|congruence]).
  rewrite (lookup_run astropy s rv velocities [v] Hrv Hne Hq). simpl fst.
  unfold lookup. simpl map.
  rewrite (channel_of_on_descending_axis _ v k Hd Hk Hv).
  now rewrite (take_one (value rv) (length (value rv) - 1 - k)) by lia.
Qed.

(** C1, on the code: the insertion point found on the reversed view is
    never mapped back.  The same cube with the axis 10, 20, 30 km/s and
    with the axis 30, 20, 10 km/s, looked up at 10 km/s: both return
    channel 0, which holds 10 km/s on the first and 30 km/s on the
    second. *)
Theorem descending_axis_lookup_mismatch :
  fst (radio_velocities example_astropy (example_object "VRAD" "10"))
  = Ok {| value := [10; 20; 30]%Q; unit := km_per_s |} /\
  fst (radio_velocities example_astropy (example_object "VRAD" "-10"))
  = Ok {| value := [30; 20; 10]%Q; unit := km_per_s |} /\
  fst (radio_velocities_to_channels example_astropy (plain [10%Q])
         (example_object "VRAD" "10"))
  = Ok ([0%Z], {| value := [10%Q]; unit := km_per_s |}) /\
  fst (radio_velocities_to_channels example_astropy (plain [10%Q])
         (example_object "VRAD" "-10"))
  = Ok ([0%Z], {| value := [30%Q]; unit := km_per_s |}).
Proof. repeat split. Qed.

(* ================================================================= *)
(** * Claims about the velocity range of [moment] *)

Lemma floor_inject_Z z : Np.floor (inject_Z z) = z.
Proof. apply Qfloor_Z. Qed.

Lemma ceil_inject_Z z : Np.ceil (inject_Z z) = z.
Proof. apply Qceiling_Z. Qed.

Lemma selects_between lo hi n c :
  lo <= c -> c <= hi -> hi < n ->
  selects {| Py.start := Some (Z.of_nat lo); Py.stop := (Z.of_nat hi + 1)%Z |}
          n c.
Proof.
  intros H1 H2 H3. unfold selects, Py.slice_indices, Py.clamp. simpl.
  destruct (Z.ltb_spec (Z.of_nat lo) 0); [lia|].
  destruct (Z.ltb_spec (Z.of_nat hi + 1) 0); lia.
Qed.

(** C7, as stated, fails: on the axis 10, 20, 30 km/s the velocity range
    (30, 10) is looked up as the channels 2 and 0; widened, floored and
    ceiled they make the slice from 2 to 1, which selects neither
    channel. *)
Lemma velocity_range_slice_counterexample :
  fst (radio_velocities example_astropy (example_object "VRAD" "10"))
  = Ok {| value := [10; 20; 30]%Q; unit := km_per_s |} /\
  fst (radio_velocities_to_channels example_astropy (plain [30; 10]%Q)
         (example_object "VRAD" "10"))
  = Ok ([2; 0]%Z, {| value := [30; 10]%Q; unit := km_per_s |}) /\
  fst (moment_range example_astropy (Some (plain [30; 10]%Q)) None
         (example_object "VRAD" "10"))
  = Ok (Some [inject_Z 2; inject_Z 1]) /\
  moment_slice [inject_Z 2; inject_Z 1]
  = Ok {| Py.start := Some 2%Z; Py.stop := 1%Z |} /\
  ~ selects {| Py.start := Some 2%Z; Py.stop := 1%Z |} 3 2 /\
  ~ selects {| Py.start := Some 2%Z; Py.stop := 1%Z |} 3 0.
Proof.
  split; [reflexivity|]. split; [reflexivity|].
  split; [reflexivity|]. split; [reflexivity|].
  split; intros H; vm_compute in H; lia.
Qed.

(** C7, amended.  On a non-decreasing radio-velocity axis, for a velocity
    range whose endpoints are in order and not above the last value of
    the axis: the endpoints are looked up as the channels [c_lo] and
    [c_hi], the upper one is widened by one, flooring and ceiling make
    the slice from [c_lo] to [c_hi + 1], and that slice selects both
    channels from any number of channels that has a channel [c_hi]. *)
Theorem velocity_range_slice astropy s rv vslice v_lo v_hi cslice :
  fst (radio_velocities astropy s) = Ok rv ->
  non_decreasing (value rv) -> value rv <> [] ->
  query_values astropy rv vslice = Ok [v_lo; v_hi] ->
  (v_lo <= v_hi)%Q ->
  (v_hi <= nth (length (value rv) - 1) (value rv) 0)%Q ->
  let c_lo := channel_of (value rv) v_lo in
  let c_hi := channel_of (value rv) v_hi in
  let data_slice :=
    {| Py.start := Some (Z.of_nat c_lo); Py.stop := (Z.of_nat c_hi + 1)%Z |} in
  fst (radio_velocities_to_channels astropy vslice s)
  = Ok ([Z.of_nat c_lo; Z.of_nat c_hi],
        {| value := [nth c_lo (value rv) 0%Q; nth c_hi (value rv) 0%Q];
           unit := unit rv |}) /\
  fst (moment_range astropy (Some vslice) cslice s)
  = Ok (Some [inject_Z (Z.of_nat c_lo); inject_Z (Z.of_nat c_hi + 1)]) /\
  moment_slice [inject_Z (Z.of_nat c_lo); inject_Z (Z.of_nat c_hi + 1)]
  = Ok data_slice /\
  c_hi < length (value rv) /\
  forall n, c_hi < n -> selects data_slice n c_lo /\ selects data_slice n c_hi.
Proof.
  intros Hrv Hnd Hne Hq Hle Hlast c_lo c_hi data_slice.
  assert (Hhi : c_hi < length (value rv))
    by exact (channel_of_in_range _ v_hi Hnd Hne Hlast).
  assert (Hlo : c_lo <= c_hi)
    by exact (channel_of_monotone _ v_lo v_hi Hnd Hle).
  assert (Hrun := lookup_run astropy s rv vslice [v_lo; v_hi] Hrv Hne Hq).
  assert (Hlook : lookup rv [v_lo; v_hi]
                  = Ok ([Z.of_nat c_lo; Z.of_nat c_hi],
                        {| value := [nth c_lo (value rv) 0%Q;
                                     nth c_hi (value rv) 0%Q];
                           unit := unit rv |})).
  { unfold lookup. simpl map. fold c_lo c_hi.
    now rewrite (take_two (value rv) c_lo c_hi) by lia. }
  rewrite Hlook in Hrun.
  split; [now rewrite Hrun|].
  split.
  { unfold moment_range. now rewrite (bind_ok _ _ _ _ _ _ _ Hrun). }
  split.
  { change (Py.slice_of_args
              [Np.floor (inject_Z (Z.of_nat c_lo));
               Np.ceil (inject_Z (Z.of_nat c_hi + 1))] = Ok data_slice).
    now rewrite floor_inject_Z, ceil_inject_Z. }
  split; [exact Hhi|].
  intros n Hn. split; apply selects_between; lia.
Qed.

Lemma velocity_range_slice_witness :
  fst (moment_range example_astropy (Some (plain [10; 20]%Q)) None
         (example_object "VRAD" "10"))
  = Ok (Some [inject_Z 0; inject_Z 2]) /\
  selects {| Py.start := Some 0%Z; Py.stop := 2%Z |} 3 1.
Proof.
  destruct (velocity_range_slice example_astropy (example_object "VRAD" "10")
              {| value := [10; 20; 30]%Q; unit := km_per_s |}
              (plain [10; 20]%Q) 10%Q 20%Q None)
    as (_ & Hr & _ & _ & Hs).
  - reflexivity.
  - intros i j Hij. simpl in Hij.
    destruct i as [|[|[|i]]]; destruct j as [|[|[|j]]];
      try lia; vm_compute; discriminate.
  - discriminate.
  - reflexivity.
  - vm_compute; discriminate.
  - vm_compute; discriminate.
  - split; [exact Hr|]. exact (proj2 (Hs 3 ltac:(vm_compute; lia))).
Defined.

(* ================================================================= *)
(** * Arrays: indices, broadcasting, sums *)

Lemma fmul_one_r x : Np.fmul x Np.one = x.
Proof.
  destruct x as [[p q]| | |]; try reflexivity.
  unfold Np.fmul, Np.one, Qmult. simpl.
  now rewrite Z.mul_1_r, Pos.mul_1_r.
Qed.

Lemma Forall2_lt_rev l l' : Forall2 lt l l' -> Forall2 lt (rev l) (rev l').
Proof.
  induction 1; simpl; [constructor|].
  apply Forall2_app; [assumption|]. now constructor.
Qed.

Lemma indices_in_range sh idx : In idx (Np.indices sh) -> in_range idx sh.
Proof.
  revert idx. induction sh as [|d sh IH]; simpl; intros idx H.
  - destruct H as [<-|[]]. constructor.
  - apply in_flat_map in H. destruct H as (i & Hi & H).
    apply in_map_iff in H. destruct H as (idx' & <- & H).
    apply in_seq in Hi. constructor; [lia|]. now apply IH.
Qed.

(** An index within the shape is projected onto itself. *)
Lemma project_rev_id rsh ridx :
  Forall2 lt ridx rsh -> Np.project_rev rsh ridx = ridx.
Proof.
  induction 1 as [|i d ridx rsh Hi _ IH]; simpl; [reflexivity|].
  rewrite IH. destruct (Nat.eqb_spec d 1); [|reflexivity]. f_equal. lia.
Qed.

Lemma bitem_in_range v idx :
  in_range idx (Np.vshape v) -> Np.bitem v idx = Np.vitem v idx.
Proof.
  intros H. unfold Np.bitem.
  rewrite (project_rev_id _ _ (Forall2_lt_rev _ _ H)).
  now rewrite rev_involutive.
Qed.

Lemma broadcast_rev_nil_r r : Np.broadcast_rev r [] = Some r.
Proof. now destruct r. Qed.

Lemma broadcast_scalar sh : Np.broadcast_shapes sh [] = Some sh.
Proof.
  unfold Np.broadcast_shapes. simpl rev at 2.
  rewrite broadcast_rev_nil_r. simpl. now rewrite rev_involutive.
Qed.


(* ================================================================= *)
(** * Claims about the integrated intensity *)



(* ================================================================= *)
(** * Broadcasting a mask *)

Lemma veq_refl v : veq v v.
Proof. now split. Qed.

Lemma req_refl r : req r r.
Proof. destruct r; simpl; [apply veq_refl|reflexivity]. Qed.

Lemma fits_refl x : fits x x.
Proof. induction x; simpl; auto. Qed.

Lemma fits_nil_r x : fits x [] -> x = [].
Proof. destruct x; simpl; [reflexivity|intros []]. Qed.

(** Both operands broadcast into the shape of the result. *)
Lemma broadcast_rev_fits a b t :
  Np.broadcast_rev a b = Some t -> fits a t /\ fits b t.
Proof.
  revert b t. induction a as [|x a IH]; intros b t H.
  - simpl in H. injection H as <-. split; [exact I|apply fits_refl].
  - destruct b as [|y b].
    + simpl in H. injection H as <-. split; [apply fits_refl|exact I].
    + simpl in H. destruct (Np.broadcast_rev a b) as [r|] eqn:E; [|discriminate].
      destruct (IH b r E) as [Ha Hb].
      destruct (Nat.eqb_spec x y) as [->|Hxy].
      { injection H as <-. simpl. auto. }
      destruct (Nat.eqb_spec x 1) as [->|Hx].
      { injection H as <-. simpl. auto. }
      destruct (Nat.eqb_spec y 1) as [->|Hy]; [|discriminate].
      injection H as <-. simpl. auto.
Qed.

(** A shape that fits leaves the other one as it is. *)
Lemma fits_broadcast x t : fits x t -> Np.broadcast_rev t x = Some t.
Proof.
  revert t. induction x as [|a x IH]; intros t H.
  - apply broadcast_rev_nil_r.
  - destruct t as [|b t]; [destruct H|]. destruct H as [Hab H].
    simpl. rewrite (IH t H).
    destruct (Nat.eqb_spec b a); [reflexivity|].
    destruct (Nat.eqb_spec b 1); [lia|].
    destruct (Nat.eqb_spec a 1); [reflexivity|lia].
Qed.

Lemma fits_last_one l k t : fits (l ++ [k]) t -> fits (l ++ [1]) t.
Proof.
  revert t. induction l as [|a l IH]; intros [|b t]; simpl; try tauto.
  intros [Hab H]. split; [assumption|]. now apply IH.
Qed.

(** An index of the result, read by an operand whose first axis has
    length [k] and by one which has length one there instead. *)
Lemma project_rev_last l k t ridx :
  fits (l ++ [k]) t -> Forall2 lt ridx t ->
  exists pr i,
    Np.project_rev (l ++ [k]) ridx = pr ++ [i] /\
    Np.project_rev (l ++ [1]) ridx = pr ++ [0] /\
    Forall2 lt pr l /\ i < k.
Proof.
  revert t ridx. induction l as [|a l IH]; intros t ridx Hf Hr.
  - destruct Hr as [|j b ridx t Hj Hr]; [destruct Hf|].
    destruct Hf as [Hk _].
    exists [], (if k =? 1 then 0 else j). simpl.
    repeat split; [constructor|].
    destruct (Nat.eqb_spec k 1); lia.
  - destruct Hr as [|j b ridx t Hj Hr]; [destruct Hf|].
    destruct Hf as [Ha Hf].
    destruct (IH t ridx Hf Hr) as (pr & i & E1 & E2 & Hpr & Hi).
    exists ((if a =? 1 then 0 else j) :: pr), i. simpl.
    rewrite E1, E2. repeat split; [|assumption].
    constructor; [|assumption].
    destruct (Nat.eqb_spec a 1); lia.
Qed.

(** An index of the result is read within the operand. *)
Lemma project_rev_fits x t ridx :
  fits x t -> Forall2 lt ridx t -> Forall2 lt (Np.project_rev x ridx) x.
Proof.
  revert t ridx. induction x as [|a x IH]; intros t ridx Hf Hr.
  - constructor.
  - destruct Hr as [|j b ridx t Hj Hr]; [destruct Hf|].
    destruct Hf as [Ha Hf]. simpl. constructor; [|now apply (IH t)].
    destruct (Nat.eqb_spec a 1); lia.
Qed.

Lemma bitem_veq v w t idx :
  veq v w -> fits (rev (Np.vshape v)) (rev t) -> in_range idx t ->
  Np.bitem v idx = Np.bitem w idx.
Proof.
  intros [Hs Hi] Hf Hr. unfold Np.bitem. rewrite <- Hs. apply Hi.
  assert (H := Forall2_lt_rev _ _
                 (project_rev_fits _ (rev t) (rev idx) Hf
                    (Forall2_lt_rev _ _ Hr))).
  rewrite rev_involutive in H. exact H.
Qed.

Lemma broadcast_shapes_fits s1 s2 t :
  Np.broadcast_shapes s1 s2 = Some t ->
  fits (rev s1) (rev t) /\ fits (rev s2) (rev t).
Proof.
  unfold Np.broadcast_shapes.
  destruct (Np.broadcast_rev (rev s1) (rev s2)) as [r|] eqn:E; [|discriminate].
  simpl. intros H. injection H as <-. rewrite rev_involutive.
  now apply broadcast_rev_fits.
Qed.

(** Elementwise operations, sums and quotients respect [veq]. *)
Lemma map2_req f v v' w w' :
  veq v v' -> veq w w' -> req (Np.map2 f v w) (Np.map2 f v' w').
Proof.
  intros Hv Hw. unfold Np.map2.
  rewrite <- (proj1 Hv), <- (proj1 Hw).
  destruct (Np.broadcast_shapes (Np.vshape v) (Np.vshape w)) as [t|] eqn:E;
    simpl; [|reflexivity].
  destruct (broadcast_shapes_fits _ _ _ E) as [Hfv Hfw].
  split; [reflexivity|]. simpl. intros idx Hidx.
  now rewrite (bitem_veq v v' t idx Hv Hfv Hidx),
              (bitem_veq w w' t idx Hw Hfw Hidx).
Qed.

Lemma nansum0_req v w : veq v w -> req (Np.nansum0 v) (Np.nansum0 w).
Proof.
  intros [Hs Hi]. unfold Np.nansum0. rewrite <- Hs.
  destruct (Np.vshape v) as [|n sh] eqn:E; simpl; [reflexivity|].
  split; [reflexivity|]. simpl. intros idx Hidx. f_equal.
  apply map_ext_in. intros i Hn. apply in_seq in Hn. f_equal.
  apply Hi. constructor; [lia|assumption].
Qed.

Lemma idivide_req m m' d d' :
  veq m m' -> veq d d' -> req (idivide m d) (idivide m' d').
Proof.
  intros Hm Hd. unfold idivide.
  assert (H := map2_req Np.fdiv m m' d d' Hm Hd).
  fold Np.divide in H.
  destruct (Np.divide m d) as [q|e], (Np.divide m' d') as [q'|e'];
    simpl in H; try contradiction; [|assumption].
  rewrite <- (proj1 H), <- (proj1 Hm).
  destruct (Np.shape_eqb _ _); simpl; [assumption|reflexivity].
Qed.

Lemma materialize_veq v w : veq v w -> Np.materialize v = Np.materialize w.
Proof.
  intros [Hs Hi]. unfold Np.materialize. rewrite <- Hs. f_equal.
  apply map_ext_in. intros idx Hidx. apply Hi.
  now apply indices_in_range.
Qed.

(** Two runs that differ by operands with the same elements. *)
Lemma lift_bind_req A (r r' : result Np.view) (k k' : Np.view -> M A) s :
  req r r' ->
  (forall x y, veq x y -> fst (k x s) = fst (k' y s)) ->
  fst (bind (lift r) k s) = fst (bind (lift r') k' s).
Proof.
  intros H Hk. unfold bind, lift.
  destruct r as [x|e], r' as [y|e']; simpl in H; try contradiction.
  - now apply Hk.
  - now subst.
Qed.

(** ** Rows of a replicated mask *)

Lemma ravel_lt sh idx : in_range idx sh -> Np.ravel sh idx < Np.size sh.
Proof.
  induction 1 as [|i d idx sh Hi _ IH]; simpl; [lia|].
  fold (Np.size sh). nia.
Qed.

Lemma nth_concat_repeat (b : list Np.fval) n j r d :
  j < n -> r < length b ->
  nth (j * length b + r) (concat (repeat b n)) d = nth r b d.
Proof.
  revert j. induction n as [|n IH]; intros j Hj Hr; [lia|].
  simpl. destruct j as [|j].
  - simpl. now rewrite app_nth1.
  - rewrite app_nth2 by (simpl; lia).
    replace (S j * length b + r - length b) with (j * length b + r)
      by (simpl; lia).
    apply IH; lia.
Qed.

Lemma expand_mask_item m n j idx :
  Np.wf m -> j < n -> in_range idx (Np.shape m) ->
  Np.item (expand_mask m n) (j :: idx) = Np.item m idx.
Proof.
  intros Hwf Hj Hidx. unfold Np.item, expand_mask. simpl.
  fold (Np.size (Np.shape m)). rewrite <- Hwf.
  apply nth_concat_repeat; [assumption|].
  rewrite Hwf. now apply ravel_lt.
Qed.

Lemma slice_indices_bound sl n :
  fst (Py.slice_indices sl n) + snd (Py.slice_indices sl n) <= n \/
  snd (Py.slice_indices sl n) = 0.
Proof.
  unfold Py.slice_indices, Py.clamp. simpl.
  destruct (Py.start sl) as [i|];
    repeat match goal with
           | |- context [(?x <? 0)%Z] => destruct (Z.ltb_spec x 0)
           end; lia.
Qed.

(** ** The two masks as operands *)

Lemma mask_bitem m n sl t idx B :
  Np.wf m ->
  Np.getslice (Np.of_array (expand_mask m n)) sl = Ok B ->
  fits (rev (snd (Py.slice_indices sl n) :: Np.shape m)) (rev t) ->
  in_range idx t ->
  Np.bitem (Np.newaxis (Np.of_array m)) idx = Np.bitem B idx.
Proof.
  intros Hwf HB Hf Hr. unfold Np.getslice in HB.
  cbn [Np.vshape Np.of_array expand_mask Np.shape] in HB.
  assert (Hb := slice_indices_bound sl n).
  revert HB Hf Hb. destruct (Py.slice_indices sl n) as [lo k].
  intros HB Hf Hb. injection HB as <-.
  cbn [fst snd] in Hf, Hb.
  change (rev (k :: Np.shape m)) with (rev (Np.shape m) ++ [k]) in Hf.
  destruct (project_rev_last (rev (Np.shape m)) k (rev t) (rev idx) Hf
              (Forall2_lt_rev _ _ Hr)) as (pr & i & E1 & E2 & Hpr & Hi).
  unfold Np.bitem. cbn [Np.vshape Np.newaxis Np.of_array].
  change (rev (1 :: Np.shape m)) with (rev (Np.shape m) ++ [1]).
  change (rev (k :: Np.shape m)) with (rev (Np.shape m) ++ [k]).
  rewrite E1, E2, !rev_app_distr. cbn [rev app Np.vitem tl].
  symmetry. apply expand_mask_item; [assumption|lia|].
  apply Forall2_lt_rev in Hpr. now rewrite rev_involutive in Hpr.
Qed.

(** Multiplying by the plane mask and by the replicated mask, sliced. *)
Lemma mask_product f p m n sl B :
  Np.wf m ->
  Np.getslice (Np.of_array (expand_mask m n)) sl = Ok B ->
  fits (rev (snd (Py.slice_indices sl n) :: Np.shape m)) (rev (Np.vshape p)) ->
  req (Np.map2 f p (Np.newaxis (Np.of_array m))) (Np.map2 f p B).
Proof.
  intros Hwf HB Hf.
  assert (HsB : Np.vshape B = snd (Py.slice_indices sl n) :: Np.shape m).
  { unfold Np.getslice in HB.
    cbn [Np.vshape Np.of_array expand_mask Np.shape] in HB.
    destruct (Py.slice_indices sl n) as [lo k]. now injection HB as <-. }
  unfold Np.map2, Np.broadcast_shapes. rewrite HsB.
  rewrite (fits_broadcast _ _ Hf).
  cbn [Np.vshape Np.newaxis Np.of_array].
  change (rev (1 :: Np.shape m)) with (rev (Np.shape m) ++ [1]).
  rewrite (fits_broadcast _ _
             (fits_last_one (rev (Np.shape m))
                (snd (Py.slice_indices sl n)) _ Hf)).
  cbn [option_map req]. split; [reflexivity|].
  cbn [Np.vshape Np.vitem]. intros idx Hidx.
  rewrite rev_involutive in Hidx.
  now rewrite (mask_bitem m n sl (Np.vshape p) idx B Hwf HB Hf Hidx).
Qed.

Lemma shape_eqb_refl sh : Np.shape_eqb sh sh = true.
Proof. unfold Np.shape_eqb. now destruct (list_eq_dec Nat.eq_dec sh sh). Qed.

Lemma shape_eqb_cons n sh : Np.shape_eqb (n :: sh) sh = false.
Proof.
  unfold Np.shape_eqb.
  destruct (list_eq_dec Nat.eq_dec (n :: sh) sh) as [E|]; [|reflexivity].
  apply (f_equal (@length nat)) in E. simpl in E. lia.
Qed.

Lemma moment_mask_plane m sl s h :
  _hdu s = Some h -> Np.shape m = tl (Np.shape (hdu_data h)) ->
  fst (moment_mask (Some m) sl s) = Ok (Np.newaxis (Np.of_array m)).
Proof.
  intros H Hm. unfold moment_mask.
  rewrite (bind_ok _ _ _ _ _ _ _ (data_run s h H)).
  change (Np.shape (Np.astype (hdu_data h) (_dtype s)))
    with (Np.shape (hdu_data h)).
  now rewrite Hm, shape_eqb_refl.
Qed.

Lemma moment_mask_cube m sl s h n sh :
  _hdu s = Some h -> Np.shape (hdu_data h) = n :: sh -> Np.shape m = sh ->
  fst (moment_mask (Some (expand_mask m n)) sl s)
  = Np.getslice (Np.of_array (expand_mask m n)) sl.
Proof.
  intros H Hsh Hm. unfold moment_mask.
  rewrite (bind_ok _ _ _ _ _ _ _ (data_run s h H)).
  change (Np.shape (Np.astype (hdu_data h) (_dtype s)))
    with (Np.shape (hdu_data h)).
  rewrite Hsh. cbn [tl expand_mask Np.shape]. rewrite Hm, shape_eqb_cons.
  rewrite (bind_ok _ _ _ _ _ _ _ (data_normalized s h)).
  change (Np.shape (Np.astype (hdu_data h) (_dtype s)))
    with (Np.shape (hdu_data h)).
  now rewrite Hsh, shape_eqb_refl.
Qed.

Lemma bind_same A B (m : M A) (k k' : A -> M B) s :
  (forall a s', fst (k a s') = fst (k' a s')) ->
  fst (bind m k s) = fst (bind m k' s).
Proof.
  intros H. unfold bind. destruct (m s) as [[a|e] s']; [apply H|reflexivity].
Qed.

Lemma lift_bind_same A B (r : result A) (k k' : A -> M B) s :
  (forall a, r = Ok a -> fst (k a s) = fst (k' a s)) ->
  fst (bind (lift r) k s) = fst (bind (lift r) k' s).
Proof.
  intros H. unfold bind, lift. destruct r as [a|e]; [now apply H|reflexivity].
Qed.

Lemma multiply_fits v w p :
  Np.multiply v w = Ok p -> fits (rev (Np.vshape v)) (rev (Np.vshape p)).
Proof.
  unfold Np.multiply, Np.map2.
  destruct (Np.broadcast_shapes (Np.vshape v) (Np.vshape w)) as [t|] eqn:E;
    [|discriminate].
  intros H. injection H as <-. simpl.
  exact (proj1 (broadcast_shapes_fits _ _ _ E)).
Qed.

(* ================================================================= *)
(** * Claims about the mask *)

(** C8.  On a loaded cube of shape [n :: sh], for every channel range
    and every kind, [moment] with a mask [m] of the shape [sh] of one
    plane gives what it gives with [m] replicated on each of the [n]
    channels: the same map, or the same exception. *)
Theorem plane_mask_as_expanded astropy s h n sh m cslice kind :
  _hdu s = Some h -> Np.shape (hdu_data h) = n :: sh ->
  Np.shape m = sh -> Np.wf m ->
  fst (moment astropy None (Some cslice) kind (Some m) s)
  = fst (moment astropy None (Some cslice) kind (Some (expand_mask m n)) s).
Proof.
  intros H Hsh Hm Hwf.
  destruct cslice as [|c cslice']; [reflexivity|].
  remember (c :: cslice') as cslice eqn:Ec.
  assert (Hc : cslice <> []) by (subst; discriminate).
  assert (Hsh' : Np.shape (hdu_data h) <> []) by (rewrite Hsh; discriminate).
  destruct (moment_channel_range astropy s h cslice kind (Some m) H Hsh' Hc)
    as (sl & A & s_data & Hsl & Hg & HA & ->).
  destruct (moment_channel_range astropy s h cslice kind
              (Some (expand_mask m n)) H Hsh' Hc)
    as (sl' & B & s_data' & Hsl' & Hg' & HB & ->).
  rewrite Hsl in Hsl'. injection Hsl' as <-.
  rewrite Hg in Hg'. injection Hg' as <-.
  rewrite (moment_mask_plane m sl s h H) in HA by now rewrite Hsh.
  injection HA as <-.
  rewrite (moment_mask_cube m sl s h n sh H Hsh Hm) in HB.
  assert (Hd : Np.vshape s_data = snd (Py.slice_indices sl n) :: Np.shape m).
  { destruct (getslice_ok (Np.of_array (Np.astype (hdu_data h) (_dtype s)))
                sl n sh Hsh) as (v' & Hv & Hs).
    rewrite Hg in Hv. injection Hv as <-. now rewrite Hm. }
  assert (Hprod : forall p,
             fits (rev (Np.vshape s_data)) (rev (Np.vshape p)) ->
             req (Np.multiply p (Np.newaxis (Np.of_array m)))
                 (Np.multiply p B)).
  { intros p Hp. rewrite Hd in Hp.
    exact (mask_product Np.fmul p m n sl B Hwf HB Hp). }
  destruct (kind =? 0)%Z.
  - apply lift_bind_req; [apply Hprod, fits_refl|]. intros x y Hxy.
    apply lift_bind_req; [now apply nansum0_req|]. intros r r' Hr.
    simpl. now rewrite (materialize_veq r r' Hr).
  - destruct (kind =? 1)%Z; [|reflexivity].
    apply bind_same. intros v s1.
    apply lift_bind_same. intros sv _.
    apply lift_bind_same. intros p Hp.
    apply lift_bind_req; [apply Hprod, (multiply_fits _ _ _ Hp)|].
    intros x y Hxy.
    apply lift_bind_req; [now apply nansum0_req|]. intros r r' Hr.
    apply lift_bind_req; [apply Hprod, fits_refl|]. intros q q' Hq.
    apply lift_bind_req; [now apply nansum0_req|]. intros d d' Hdd.
    apply lift_bind_req; [now apply idivide_req|]. intros z z' Hz.
    simpl. now rewrite (materialize_veq z z' Hz).
Qed.

Lemma plane_mask_as_expanded_witness :
  fst (moment example_astropy None (Some [0; 3]%Q) 0
         (Some (expand_mask example_mask 3)) (example_object "VRAD" "10"))
  = Ok (Some {| Np.cshape := [1; 2];
                Np.cbuf := [Np.Fin 6; Np.Fin 0] |}).
Proof.
  refine (eq_trans (eq_sym
    (plane_mask_as_expanded example_astropy (example_object "VRAD" "10")
       (ImageHDU example_cube
          (header_set "SPECSYS" "LSRK"
             (header_set "CTYPE3" "VRAD"
                (header_set "CUNIT3" "m/s"
                   (example_header "VRAD" "10")))))
       3 [1; 2] example_mask [0; 3]%Q 0 _ _ _ _)) _).
  - reflexivity.
  - reflexivity.
  - reflexivity.
  - reflexivity.
  - vm_compute. reflexivity.
Defined.

(* ================================================================= *)
(** * Further properties: construction and the raw accessors *)

(** X1.  The [data] property brings the stored array to the configured element
    type: what it returns has that type and the shape of the stored
    array, it is what the object stores from then on, and a second read
    returns the same array and changes nothing. *)
Theorem data_normalises_once s h :
  _hdu s = Some h ->
  exists d s',
    data s = (Ok d, s') /\
    Np.dtype_of d = _dtype s /\
    Np.shape d = Np.shape (hdu_data h) /\
    option_map hdu_data (_hdu s') = Some d /\
    option_map hdu_header (_hdu s') = Some (hdu_header h) /\
    data s' = (Ok d, s').
Proof.
  intros H. exists (Np.astype (hdu_data h) (_dtype s)), (normalized s h).
  split; [now apply data_run|]. repeat split. apply data_normalized.
Qed.

Lemma data_normalises_once_witness :
  exists d s',
    data (example_object "VRAD" "10") = (Ok d, s') /\
    Np.dtype_of d = Np.float32 /\
    Np.shape d = [3; 1; 2] /\
    option_map hdu_data (_hdu s') = Some d /\
    option_map hdu_header (_hdu s')
    = Some (header_set "SPECSYS" "LSRK"
              (header_set "CTYPE3" "VRAD"
                 (header_set "CUNIT3" "m/s" (example_header "VRAD" "10")))) /\
    data s' = (Ok d, s').
Proof.
  apply (data_normalises_once (example_object "VRAD" "10")
           (ImageHDU example_cube
              (header_set "SPECSYS" "LSRK"
                 (header_set "CTYPE3" "VRAD"
                    (header_set "CUNIT3" "m/s"
                       (example_header "VRAD" "10")))))).
  reflexivity.
Defined.

Lemma find_first_image before h after :
  (forall x, In x before -> is_image x = false) -> is_image h = true ->
  find is_image (before ++ h :: after) = Some h.
Proof.
  intros Hb Hh. induction before as [|x l IH]; simpl.
  - now rewrite Hh.
  - rewrite (Hb x (or_introl eq_refl)). apply IH.
    intros y Hy. apply Hb. now right.
Qed.

(** X2.  Built from a path, the object holds the first extension of the file
    that is flagged as an image, whatever follows it and whatever array
    and metadata were passed along; the element type is the one given,
    32-bit float by default, and nothing is cached yet. *)
Theorem init_from_path astropy path before h after data0 header0 dtype :
  fits_open astropy path = Ok (before ++ h :: after) ->
  (forall x, In x before -> is_image x = false) -> is_image h = true ->
  exists self,
    __init__ astropy (Some path) data0 header0 dtype = Ok self /\
    _hdu self = Some h /\
    _dtype self = match dtype with Some t => t | None => Np.float32 end /\
    _wcs self = None /\ _axis_units self = None /\
    _frequencies self = None /\ _radio_velocities self = None /\
    _optical_velocities self = None.
Proof.
  intros Hopen Hb Hh. unfold __init__.
  rewrite Hopen, (find_first_image before h after Hb Hh).
  eexists. split; [reflexivity|]. repeat split.
Qed.

Lemma init_from_path_witness :
  exists self,
    __init__ example_archive (Some "cube.fits"%string) (Some example_cube)
      (Some (example_header "WAVE" "10")) (Some Np.float64) = Ok self /\
    _hdu self = Some (ImageHDU example_cube (example_header "VRAD" "10")) /\
    _dtype self = Np.float64 /\
    _wcs self = None /\ _axis_units self = None /\
    _frequencies self = None /\ _radio_velocities self = None /\
    _optical_velocities self = None.
Proof.
  apply (init_from_path example_archive "cube.fits" [example_table]
           (ImageHDU example_cube (example_header "VRAD" "10"))
           [ImageHDU example_cube (example_header "FREQ" "10")]
           (Some example_cube) (Some (example_header "WAVE" "10"))
           (Some Np.float64)).
  - reflexivity.
  - intros x [<-|[]]. reflexivity.
  - reflexivity.
Defined.

(** X3.  The WCS is built from the header at the first access and kept: the
    spectral and celestial parts are taken from it, and once it is there
    every access returns it, also after the header has been replaced.
    On an object without an extension the access raises and keeps
    nothing. *)
Theorem wcs_built_once astropy s h :
  _wcs s = None -> _hdu s = Some h ->
  let w := WCS_of_header astropy (hdu_header h) in
  let s' := set_wcs (Some w) s in
  wcs astropy s = (Ok w, s') /\
  spec_wcs astropy s = (Ok (wcs_sub astropy w ["spectral"%string]), s') /\
  cel_wcs astropy s
  = (Ok (wcs_sub astropy w ["longitude"%string; "latitude"%string]), s') /\
  (forall hd,
     let later := set_hdu (Some (set_hdu_header h hd)) s' in
     wcs astropy later = (Ok w, later) /\
     spec_wcs astropy later
     = (Ok (wcs_sub astropy w ["spectral"%string]), later)) /\
  wcs astropy (set_hdu None s)
  = (Raise (no_attribute "NoneType" "header"), set_hdu None s).
Proof.
  intros Hw Hh w s'.
  assert (E : wcs astropy s = (Ok w, s')).
  { unfold wcs, bind, get_attr, header, modify, ret. now rewrite Hw, Hh. }
  split; [exact E|]. split; [|split; [|split]].
  - unfold spec_wcs. now rewrite (bind_ok _ _ _ _ _ _ _ E).
  - unfold cel_wcs. now rewrite (bind_ok _ _ _ _ _ _ _ E).
  - intros hd later.
    assert (E' : wcs astropy later = (Ok w, later))
      by now apply wcs_cached.
    split; [exact E'|].
    unfold spec_wcs. now rewrite (bind_ok _ _ _ _ _ _ _ E').
  - unfold wcs, bind, get_attr, header. simpl. now rewrite Hw.
Qed.

Lemma wcs_built_once_witness :
  fst (wcs example_astropy (example_base_object "FREQ" "10"))
  = Ok (WCS_of_header example_astropy (example_header "FREQ" "10")).
Proof.
  exact (f_equal fst
    (proj1 (wcs_built_once example_astropy (example_base_object "FREQ" "10")
              (ImageHDU example_cube (example_header "FREQ" "10"))
              eq_refl eq_refl))).
Defined.

(** ** The survey class *)

Lemma header_get_set key v h : header_get key (header_set key v h) = v.
Proof.
  induction h as [|[k x] h IH]; simpl.
  - now rewrite String.eqb_refl.
  - destruct (String.eqb k key) eqn:E; simpl; now rewrite E.
Qed.

Lemma header_get_set_other key key' v h :
  key' <> key -> header_get key' (header_set key v h) = header_get key' h.
Proof.
  intros Hk. induction h as [|[k x] h IH]; simpl.
  - destruct (String.eqb_spec key key'); [congruence|reflexivity].
  - destruct (String.eqb_spec k key) as [->|Hn]; simpl.
    + destruct (String.eqb_spec key key'); [congruence|reflexivity].
    + now rewrite IH.
Qed.

(** X4.  On top of the base construction the survey class rewrites three
    cards of the loaded header, to CUNIT3 = m/s, CTYPE3 = VRAD and
    SPECSYS = LSRK, whatever they were; every other card and the array
    stay as loaded, and no WCS has been computed yet. *)
Theorem EBHIS_header_override astropy path data0 header0 dtype base h :
  __init__ astropy path data0 header0 dtype = Ok base ->
  _hdu base = Some h ->
  exists self h',
    EBHISDatacube__init__ astropy path data0 header0 dtype = Ok self /\
    _hdu self = Some h' /\
    hdu_data h' = hdu_data h /\
    header_get "CUNIT3" (hdu_header h') = "m/s"%string /\
    header_get "CTYPE3" (hdu_header h') = "VRAD"%string /\
    header_get "SPECSYS" (hdu_header h') = "LSRK"%string /\
    (forall key,
       key <> "CUNIT3"%string -> key <> "CTYPE3"%string ->
       key <> "SPECSYS"%string ->
       header_get key (hdu_header h') = header_get key (hdu_header h)) /\
    _wcs self = None /\ _dtype self = _dtype base.
Proof.
  intros Hb Hh. unfold EBHISDatacube__init__. rewrite Hb, Hh.
  do 2 eexists. split; [reflexivity|]. split; [reflexivity|].
  split; [reflexivity|]. cbn [hdu_header set_hdu_header].
  split; [|split; [|split; [|split; [|split]]]].
  - rewrite !header_get_set_other by discriminate. apply header_get_set.
  - rewrite header_get_set_other by discriminate. apply header_get_set.
  - apply header_get_set.
  - intros key H1 H2 H3. now rewrite !header_get_set_other by assumption.
  - simpl. unfold __init__ in Hb. destruct path as [p|].
    + destruct (fits_open astropy p) as [l|e]; [|discriminate].
      destruct (find is_image l); injection Hb as <-; reflexivity.
    + destruct data0, header0; try discriminate.
      injection Hb as <-. reflexivity.
  - reflexivity.
Qed.

Lemma EBHIS_header_override_witness :
  exists self h',
    EBHISDatacube__init__ example_astropy None (Some example_cube)
      (Some (example_header "FREQ" "10")) None = Ok self /\
    _hdu self = Some h' /\
    hdu_data h' = example_cube /\
    header_get "CUNIT3" (hdu_header h') = "m/s"%string /\
    header_get "CTYPE3" (hdu_header h') = "VRAD"%string /\
    header_get "SPECSYS" (hdu_header h') = "LSRK"%string /\
    (forall key,
       key <> "CUNIT3"%string -> key <> "CTYPE3"%string ->
       key <> "SPECSYS"%string ->
       header_get key (hdu_header h')
       = header_get key (example_header "FREQ" "10")) /\
    _wcs self = None /\ _dtype self = Np.float32.
Proof.
  apply (EBHIS_header_override example_astropy None (Some example_cube)
           (Some (example_header "FREQ" "10")) None
           (example_base_object "FREQ" "10")
           (ImageHDU example_cube (example_header "FREQ" "10"))).
  - reflexivity.
  - reflexivity.
Defined.

(** X5.  From a file without an image extension the base construction goes
    through and loads nothing; the survey class then reads the header of
    the missing extension, so its construction raises an attribute
    error. *)
Theorem EBHIS_init_without_image astropy path hdus data0 header0 dtype :
  fits_open astropy path = Ok hdus ->
  (forall h, In h hdus -> is_image h = false) ->
  is_ok (__init__ astropy (Some path) data0 header0 dtype) = true /\
  EBHISDatacube__init__ astropy (Some path) data0 header0 dtype
  = Raise (no_attribute "NoneType" "header").
Proof.
  intros Hopen Himg. unfold EBHISDatacube__init__, __init__.
  now rewrite Hopen, (find_none_image hdus Himg).
Qed.

Lemma EBHIS_init_without_image_witness :
  EBHISDatacube__init__ example_astropy (Some "table.fits"%string) None None None
  = Raise (AttributeError "'NoneType' object has no attribute 'header'").
Proof.
  apply (EBHIS_init_without_image example_astropy "table.fits"
           [example_table] None None None).
  - reflexivity.
  - intros h [<-|[]]. reflexivity.
Defined.

(* ================================================================= *)
(** * Further properties: the channel lookup *)

Lemma take_all a cs :
  Forall (fun c => c < length a) cs ->
  take a (map Z.of_nat cs) = Ok (map (fun c => nth c a 0%Q) cs).
Proof.
  unfold take. induction 1 as [|c cs Hc _ IH]; [reflexivity|].
  simpl. rewrite (index_nat a c 0%Q Hc). simpl in IH. now rewrite IH.
Qed.

Lemma take_out_of_range a cs c :
  In c cs -> length a <= c ->
  take a (map Z.of_nat cs)
  = Raise (IndexError "index out of bounds for axis 0").
Proof.
  unfold take. induction cs as [|c' cs IH]; intros Hin Hc; [destruct Hin|].
  simpl. destruct (Py.index a (Z.of_nat c')) as [x|] eqn:E; [|reflexivity].
  destruct Hin as [->|Hin].
  - now rewrite (index_length a c Hc) in E.
  - simpl in IH. now rewrite (IH Hin Hc).
Qed.

Lemma lookup_channels rv sv :
  map (fun v => Z.of_nat (channel_of (value rv) v)) sv
  = map Z.of_nat (map (channel_of (value rv)) sv).
Proof. now rewrite map_map. Qed.

(** X6.  On a non-decreasing axis, for any number of velocities none of which
    is above the last value: each is answered with its leftmost insertion
    point, the first channel whose velocity is not below it, and with the
    velocity stored there; the answers come in the order of the
    queries. *)
Theorem lookup_insertion_points astropy s rv velocities sv :
  fst (radio_velocities astropy s) = Ok rv ->
  non_decreasing (value rv) -> value rv <> [] ->
  query_values astropy rv velocities = Ok sv ->
  (forall v, In v sv ->
     (v <= nth (length (value rv) - 1) (value rv) 0)%Q) ->
  fst (radio_velocities_to_channels astropy velocities s)
  = Ok (map (fun v => Z.of_nat (channel_of (value rv) v)) sv,
        {| value :=
             map (fun v => nth (channel_of (value rv) v) (value rv) 0%Q) sv;
           unit := unit rv |}) /\
  forall v, In v sv ->
    let c := channel_of (value rv) v in
    c < length (value rv) /\
    (v <= nth c (value rv) 0)%Q /\
    forall j, j < c -> (nth j (value rv) 0 < v)%Q.
Proof.
  intros Hrv Hnd Hne Hq Hle.
  assert (Hin : forall v, In v sv ->
                  channel_of (value rv) v < length (value rv)).
  { intros v Hv. exact (channel_of_in_range _ v Hnd Hne (Hle v Hv)). }
  split.
  - rewrite (lookup_run astropy s rv velocities sv Hrv Hne Hq). simpl fst.
    unfold lookup. rewrite lookup_channels.
    rewrite (take_all (value rv) (map (channel_of (value rv)) sv)).
    + now rewrite !map_map.
    + apply Forall_forall. intros c Hc. apply in_map_iff in Hc.
      destruct Hc as (v & <- & Hv). now apply Hin.
  - intros v Hv c. subst c.
    destruct (channel_of_bounds (value rv) v Hnd) as (_ & Hbelow & Habove).
    split; [now apply Hin|]. split; [|exact Hbelow].
    apply Habove. split; [lia|now apply Hin].
Qed.

Lemma lookup_insertion_points_witness :
  fst (radio_velocities_to_channels example_astropy (plain [12; 30; 5]%Q)
         (example_object "VRAD" "10"))
  = Ok ([1; 2; 0]%Z, {| value := [20; 30; 10]%Q; unit := km_per_s |}).
Proof.
  refine (eq_trans
    (proj1 (lookup_insertion_points example_astropy
              (example_object "VRAD" "10")
              {| value := [10; 20; 30]%Q; unit := km_per_s |}
              (plain [12; 30; 5]%Q) [12; 30; 5]%Q _ _ _ _ _)) _).
  - reflexivity.
  - intros i j Hij. simpl in Hij.
    destruct i as [|[|[|i]]]; destruct j as [|[|[|j]]];
      try lia; vm_compute; discriminate.
  - discriminate.
  - reflexivity.
  - intros v [<-|[<-|[<-|[]]]]; vm_compute; discriminate.
  - vm_compute. reflexivity.
Defined.

(** X7.  On a non-decreasing axis one velocity above the last value makes the
    whole lookup raise an index error, whatever the other velocities
    are. *)
Theorem lookup_any_above_last astropy s rv velocities sv v :
  fst (radio_velocities astropy s) = Ok rv ->
  non_decreasing (value rv) -> value rv <> [] ->
  query_values astropy rv velocities = Ok sv ->
  In v sv -> (nth (length (value rv) - 1) (value rv) 0 < v)%Q ->
  fst (radio_velocities_to_channels astropy velocities s)
  = Raise (IndexError "index out of bounds for axis 0").
Proof.
  intros Hrv Hnd Hne Hq Hin Hv.
  rewrite (lookup_run astropy s rv velocities sv Hrv Hne Hq). simpl fst.
  unfold lookup. rewrite lookup_channels.
  rewrite (take_out_of_range (value rv) _ (channel_of (value rv) v)).
  - reflexivity.
  - now apply in_map.
  - rewrite (channel_above_last _ v Hnd Hv). lia.
Qed.

Lemma lookup_any_above_last_witness :
  fst (radio_velocities_to_channels example_astropy (plain [10; 35; 20]%Q)
         (example_object "VRAD" "10"))
  = Raise (IndexError "index out of bounds for axis 0").
Proof.
  apply (lookup_any_above_last example_astropy (example_object "VRAD" "10")
           {| value := [10; 20; 30]%Q; unit := km_per_s |}
           (plain [10; 35; 20]%Q) [10; 35; 20]%Q 35%Q).
  - reflexivity.
  - intros i j Hij. simpl in Hij.
    destruct i as [|[|[|i]]]; destruct j as [|[|[|j]]];
      try lia; vm_compute; discriminate.
  - discriminate.
  - reflexivity.
  - simpl. auto.
  - vm_compute. reflexivity.
Defined.



(** Lines 144-148 on the object: the numbers searched for, and the axis
    as the next statement reads it. *)
Lemma query_run astropy s rv velocities sv :
  fst (radio_velocities astropy s) = Ok rv ->
  query_values astropy rv velocities = Ok sv ->
  exists s0,
    (if negb (is_dimensionless_unscaled (unit velocities))
     then bind (radio_velocities astropy) (fun rv0 =>
          bind (lift (Quantity_to astropy velocities (unit rv0)
                        no_equivalency)) (fun q => ret (value q)))
     else ret (value velocities)) s = (Ok sv, s0) /\
    radio_velocities astropy s0
    = (Ok rv, snd (radio_velocities astropy s)).
Proof.
  intros Hrv Hq.
  destruct (radio_velocities_run astropy s rv Hrv) as (s' & Es & Hs & Hs').
  rewrite <- Es. clear Es.
  unfold query_values in Hq.
  destruct (negb (is_dimensionless_unscaled (unit velocities))).
  - exists s'. rewrite (bind_ok _ _ _ _ _ _ _ Hs). unfold bind, lift, ret.
    destruct (Quantity_to astropy velocities (unit rv) no_equivalency)
      as [q|e]; [|discriminate].
    injection Hq as <-. now split.
  - exists s. injection Hq as <-. now split.
Qed.

Lemma lookup_empty_run astropy s rv velocities sv :
  fst (radio_velocities astropy s) = Ok rv -> value rv = [] ->
  query_values astropy rv velocities = Ok sv ->
  radio_velocities_to_channels astropy velocities s
  = (Raise (IndexError "index out of bounds for axis 0"),
     snd (radio_velocities astropy s)).
Proof.
  intros Hrv He Hq.
  destruct (query_run astropy s rv velocities sv Hrv Hq) as (s0 & H1 & H2).
  unfold radio_velocities_to_channels.
  rewrite (bind_ok _ _ _ _ _ _ _ H1).
  rewrite (bind_ok _ _ _ _ _ _ _ H2).
  now rewrite He.
Qed.



Lemma lookup_on_descending_axis_witness :
  fst (radio_velocities_to_channels example_astropy (plain [20%Q])
         (example_object "VRAD" "-10"))
  = Ok ([1%Z], {| value := [20%Q]; unit := km_per_s |}) /\
  fst (radio_velocities_to_channels example_astropy (plain [30%Q])
         (example_object "VRAD" "-10"))
  = Ok ([2%Z], {| value := [10%Q]; unit := km_per_s |}).
Proof.
  assert (D : descending [30; 20; 10]%Q).
  { intros i j Hij. simpl in Hij.
    destruct i as [|[|[|i]]]; destruct j as [|[|[|j]]];
      try lia; reflexivity. }
  split.
  - exact (lookup_on_descending_axis example_astropy
             (example_object "VRAD" "-10")
             {| value := [30; 20; 10]%Q; unit := km_per_s |}
             (plain [20%Q]) 20%Q 1 eq_refl D ltac:(simpl; lia) eq_refl
             ltac:(reflexivity)).
  - exact (lookup_on_descending_axis example_astropy
             (example_object "VRAD" "-10")
             {| value := [30; 20; 10]%Q; unit := km_per_s |}
             (plain [30%Q]) 30%Q 0 eq_refl D ltac:(simpl; lia) eq_refl
             ltac:(reflexivity)).
Defined.

(* ================================================================= *)
(** * Further properties: the integrated intensity *)

Lemma map_seq_from {A} (f : nat -> A) a k :
  map (fun i => f (a + i)) (seq 0 k) = map f (seq a k).
Proof.
  assert (G : forall s, map (fun i => f (a + i)) (seq s k)
                        = map f (seq (a + s) k)).
  { induction k as [|k IH]; intros s; [reflexivity|].
    simpl. f_equal. rewrite IH. now rewrite Nat.add_succ_r. }
  rewrite G. now rewrite Nat.add_0_r.
Qed.

Lemma broadcast_shapes_same sh : Np.broadcast_shapes sh sh = Some sh.
Proof.
  unfold Np.broadcast_shapes.
  rewrite (fits_broadcast _ _ (fits_refl (rev sh))). simpl.
  now rewrite rev_involutive.
Qed.


Lemma slice_indices_within n a b :
  a <= b <= n ->
  Py.slice_indices
    {| Py.start := Some (Z.of_nat a); Py.stop := Z.of_nat b |} n
  = (a, b - a).
Proof.
  intros H. unfold Py.slice_indices, Py.clamp. cbn [Py.start Py.stop].
  destruct (Z.ltb_spec (Z.of_nat a) 0); [lia|].
  destruct (Z.ltb_spec (Z.of_nat b) 0); [lia|].
  f_equal; lia.
Qed.

(** The zeroth moment with the mask as the operand [mv] it has become:
    the sum over the selected channels of data times mask. *)
Lemma moment0_with_view astropy s h n sh lo hi mask mv :
  _hdu s = Some h -> Np.shape (hdu_data h) = n :: sh ->
  let sl := {| Py.start := Some (Np.floor lo); Py.stop := Np.ceil hi |} in
  let a := fst (Py.slice_indices sl n) in
  let k := snd (Py.slice_indices sl n) in
  let d := Np.astype (hdu_data h) (_dtype s) in
  fst (moment_mask mask sl s) = Ok mv ->
  Np.broadcast_shapes (k :: sh) (Np.vshape mv) = Some (k :: sh) ->
  fst (moment astropy None (Some [lo; hi]) 0 mask s)
  = Ok (Some
          {| Np.cshape := sh;
             Np.cbuf :=
               map (fun idx =>
                      fold_left Np.fadd
                        (map (fun i =>
                                Np.nan_to_zero
                                  (Np.fmul (Np.item d ((a + i) :: idx))
                                           (Np.bitem mv (i :: idx))))
                             (seq 0 k))
                        Np.zero)
                   (Np.indices sh) |}).
Proof.
  intros H Hsh sl a k d Hmv Hb.
  assert (Hsh' : Np.shape (hdu_data h) <> []) by (rewrite Hsh; discriminate).
  destruct (moment_channel_range astropy s h [lo; hi] 0 mask H Hsh')
    as (sl' & mv' & s_data & Hsl & Hg & Hm & Hrun); [discriminate|].
  change (moment_slice [lo; hi]) with (Ok sl) in Hsl.
  injection Hsl as <-. rewrite Hmv in Hm. injection Hm as <-.
  unfold Np.getslice in Hg.
  change (Np.vshape (Np.of_array (Np.astype (hdu_data h) (_dtype s))))
    with (Np.shape (hdu_data h)) in Hg.
  rewrite Hsh in Hg. subst a k.
  destruct (Py.slice_indices sl n) as [a k]. cbn [fst snd] in *.
  injection Hg as <-.
  rewrite Hrun. change (0 =? 0)%Z with true. cbv iota.
  unfold Np.multiply, Np.map2. cbn [Np.vshape]. rewrite Hb.
  unfold bind, lift, ret, Np.nansum0, Np.materialize.
  cbn [Np.vshape Np.vitem fst].
  do 3 f_equal.
  apply map_ext_in. intros idx Hidx. f_equal.
  apply map_ext_in. intros i Hi. do 2 f_equal.
  apply in_seq in Hi. apply indices_in_range in Hidx.
  rewrite bitem_in_range by (constructor; [lia|assumption]).
  reflexivity.
Qed.



(** X12.  A channel range whose bounds, the lower floored and the upper
    ceiled, are both at least zero, the upper not above the lower,
    selects no channel; the zeroth moment is then the map of zeros, and
    nothing is raised.  (A negative bound counts from the end of the
    axis and is not covered here.) *)
Theorem moment0_empty_range astropy s h n sh lo hi :
  _hdu s = Some h -> Np.shape (hdu_data h) = n :: sh ->
  (0 <= Np.ceil hi <= Np.floor lo)%Z ->
  fst (moment astropy None (Some [lo; hi]) 0 None s)
  = Ok (Some {| Np.cshape := sh;
                Np.cbuf := map (fun _ => Np.zero) (Np.indices sh) |}).
Proof.
  intros H Hsh Hb.
  rewrite (moment0_with_view astropy s h n sh lo hi None (Np.scalar Np.one)
             H Hsh eq_refl (broadcast_scalar _)).
  assert (E : snd (Py.slice_indices
                     {| Py.start := Some (Np.floor lo);
                        Py.stop := Np.ceil hi |} n) = 0).
  { unfold Py.slice_indices, Py.clamp. cbn [Py.start Py.stop snd].
    destruct (Z.ltb_spec (Np.floor lo) 0); [lia|].
    destruct (Z.ltb_spec (Np.ceil hi) 0); lia. }
  rewrite E. reflexivity.
Qed.

Lemma moment0_empty_range_witness :
  fst (moment example_astropy None (Some [2; 1]%Q) 0 None
         (example_object "VRAD" "10"))
  = Ok (Some {| Np.cshape := [1; 2];
                Np.cbuf := [Np.Fin 0; Np.Fin 0] |}).
Proof.
  refine (eq_trans
    (moment0_empty_range example_astropy (example_object "VRAD" "10")
       (ImageHDU example_cube
          (header_set "SPECSYS" "LSRK"
             (header_set "CTYPE3" "VRAD"
                (header_set "CUNIT3" "m/s"
                   (example_header "VRAD" "10")))))
       3 [1; 2] 2%Q 1%Q _ _ _) _).
  - reflexivity.
  - reflexivity.
  - vm_compute. split; discriminate.
  - reflexivity.
Defined.







(* ================================================================= *)
(** * Further properties: ranges, state and failure of [moment] *)

(** X15.  A velocity range takes the place of the channel range: [moment] with
    a velocity range is [moment] with the channels the lookup returned,
    the last one raised by one, as channel range, run on the object the
    lookup left; a channel range passed along is not read. *)
Theorem moment_velocity_range astropy s vslice cslice kind mask chs tv chs' :
  fst (radio_velocities_to_channels astropy vslice s) = Ok (chs, tv) ->
  Py.incr_last chs = Some chs' ->
  moment astropy (Some vslice) cslice kind mask s
  = moment astropy None (Some (map inject_Z chs')) kind mask
      (snd (radio_velocities_to_channels astropy vslice s)).
Proof.
  intros Hr Hi. unfold moment, moment_range.
  destruct (radio_velocities_to_channels astropy vslice s) as [r s1] eqn:E.
  simpl in Hr. subst r. cbn [snd].
  rewrite (bind_ok _ _ _ _ s (Some (map inject_Z chs')) s1).
  - now rewrite (bind_ok _ _ (ret (Some (map inject_Z chs'))) _ s1 _ s1 eq_refl).
  - rewrite (bind_ok _ _ _ _ _ _ _ E). now rewrite Hi.
Qed.

Lemma moment_velocity_range_witness :
  moment example_astropy (Some (plain [10; 20]%Q)) (Some [2; 3]%Q) 0 None
    (example_object "VRAD" "10")
  = moment example_astropy None (Some [inject_Z 0; inject_Z 2]) 0 None
      (snd (radio_velocities_to_channels example_astropy (plain [10; 20]%Q)
              (example_object "VRAD" "10"))).
Proof.
  apply (moment_velocity_range example_astropy (example_object "VRAD" "10")
           (plain [10; 20]%Q) (Some [2; 3]%Q) 0 None [0; 1]%Z
           {| value := [10; 20]%Q; unit := km_per_s |} [0; 2]%Z).
  - reflexivity.
  - reflexivity.
Defined.



(** X17.  Of a channel range only the first two numbers are read, and of these
    only the floor of the first and the ceiling of the second: ranges
    that agree on them give the same, whatever further numbers follow.
    With one number the slice runs from the first channel to that number
    floored; with none, building the slice raises a type error before the
    cube is touched. *)
Theorem moment_channel_range_rounding astropy s kind mask lo hi lo' hi' rest :
  Np.floor lo = Np.floor lo' -> Np.ceil hi = Np.ceil hi' ->
  moment astropy None (Some (lo :: hi :: rest)) kind mask s
  = moment astropy None (Some [lo'; hi']) kind mask s /\
  moment_slice [lo]
  = Ok {| Py.start := None; Py.stop := Np.floor lo |} /\
  moment astropy None (Some []) kind mask s
  = (Raise (TypeError "slice expected at least 1 arguments, got 0"), s).
Proof.
  intros Hlo Hhi. split; [|split; reflexivity].
  unfold moment, moment_range.
  rewrite !(bind_ok _ _ (ret (Some _)) _ s _ s eq_refl).
  change (moment_slice (lo :: hi :: rest))
    with (Ok {| Py.start := Some (Np.floor lo); Py.stop := Np.ceil hi |}).
  change (moment_slice [lo'; hi'])
    with (Ok {| Py.start := Some (Np.floor lo'); Py.stop := Np.ceil hi' |}).
  now rewrite Hlo, Hhi.
Qed.

Lemma moment_channel_range_rounding_witness :
  moment example_astropy None (Some [(1 # 2); (5 # 2); 7]%Q) 0 None
    (example_object "VRAD" "10")
  = moment example_astropy None (Some [0; 3]%Q) 0 None
      (example_object "VRAD" "10").
Proof.
  exact (proj1
    (moment_channel_range_rounding example_astropy
       (example_object "VRAD" "10") 0 None (1 # 2)%Q (5 # 2)%Q 0%Q 3%Q [7%Q]
       eq_refl eq_refl)).
Defined.

(** What follows the slicing reads the object and writes nothing. *)
Lemma moment_branch_preserves P kind (s_data mv : Np.view) sl :
  preserves P
    (if (kind =? 0)%Z then
       bind (lift (Np.multiply s_data mv)) (fun p =>
       bind (lift (Np.nansum0 p)) (fun r =>
       ret (Some (Np.materialize r))))
     else if (kind =? 1)%Z then
       bind get_velocities (fun v =>
       bind (lift (Np.getslice (view_of_values (value v)) sl)) (fun sv =>
       bind (lift (Np.multiply s_data (Np.column sv))) (fun p =>
       bind (lift (Np.multiply p mv)) (fun p' =>
       bind (lift (Np.nansum0 p')) (fun m =>
       bind (lift (Np.multiply s_data mv)) (fun q =>
       bind (lift (Np.nansum0 q)) (fun den =>
       bind (lift (idivide m den)) (fun m' =>
       ret (Some (Np.materialize m'))))))))))
     else ret None).
Proof. unfold get_velocities. pres. Qed.

Lemma moment_mask_normalized mask sl s h :
  _hdu s = Some h ->
  fst (moment_mask mask sl (normalized s h)) = fst (moment_mask mask sl s).
Proof.
  intros H. destruct mask as [m|]; [|reflexivity]. unfold moment_mask.
  rewrite (bind_ok _ _ _ _ _ _ _ (data_run s h H)).
  now rewrite (bind_ok _ _ _ _ _ _ _ (data_normalized s h)).
Qed.

(** X18.  Apart from bringing the array to the configured element type,
    [moment] with a channel range leaves the object as it is, whatever it
    returns or raises; called again on the object it left it gives the
    same and changes nothing. *)
Theorem moment_only_normalises astropy s h cslice kind mask :
  _hdu s = Some h -> Np.shape (hdu_data h) <> [] -> cslice <> [] ->
  snd (moment astropy None (Some cslice) kind mask s) = normalized s h /\
  moment astropy None (Some cslice) kind mask (normalized s h)
  = (fst (moment astropy None (Some cslice) kind mask s), normalized s h).
Proof.
  intros H Hsh Hc.
  destruct (moment_channel_range astropy s h cslice kind mask H Hsh Hc)
    as (sl & mv & s_data & Hsl & Hg & Hm & Hrun).
  destruct (moment_channel_range astropy (normalized s h)
              (set_hdu_data h (Np.astype (hdu_data h) (_dtype s)))
              cslice kind mask (normalized_hdu s h) Hsh Hc)
    as (sl' & mv' & s_data' & Hsl' & Hg' & Hm' & Hrun').
  rewrite Hsl in Hsl'. injection Hsl' as <-.
  assert (Es := eq_trans (eq_sym Hg) Hg'). injection Es as <-.
  rewrite (moment_mask_normalized mask sl s h H), Hm in Hm'.
  injection Hm' as <-.
  change (normalized (normalized s h)
            (set_hdu_data h (Np.astype (hdu_data h) (_dtype s))))
    with (normalized s h) in Hrun'.
  rewrite Hrun, Hrun'.
  assert (Hp := moment_branch_preserves (fun x => x = normalized s h)
                  kind s_data mv sl (normalized s h) eq_refl).
  split; [exact Hp|].
  destruct (_ (normalized s h)) as [r s1]. simpl in Hp. now subst s1.
Qed.

Lemma moment_only_normalises_witness :
  snd (moment example_astropy None (Some [0; 3]%Q) 0 None
         (example_object "VRAD" "10"))
  = normalized (example_object "VRAD" "10")
      (ImageHDU example_cube
         (header_set "SPECSYS" "LSRK"
            (header_set "CTYPE3" "VRAD"
               (header_set "CUNIT3" "m/s" (example_header "VRAD" "10"))))).
Proof.
  exact (proj1
    (moment_only_normalises example_astropy (example_object "VRAD" "10")
       (ImageHDU example_cube
          (header_set "SPECSYS" "LSRK"
             (header_set "CTYPE3" "VRAD"
                (header_set "CUNIT3" "m/s" (example_header "VRAD" "10")))))
       [0; 3]%Q 0 None eq_refl ltac:(discriminate) ltac:(discriminate))).
Defined.

(** ** An object without an extension *)



(* ================================================================= *)
(** * Further properties: the derived axes *)

(** The run of [frequencies] up to the conversion, on a recognised
    spectral axis type. *)
Lemma frequencies_supported_run astropy s h w n us u t eq :
  _frequencies s = None ->
  _hdu s = Some h ->
  fst (wcs astropy s) = Ok w ->
  Py.index (rev (Np.shape (hdu_data h))) (spec w) = Some n ->
  fst (axis_units astropy s) = Ok us ->
  Py.index us (spec w) = Some u ->
  recorded_ctype w = Some t ->
  equivalency_of w t = Some eq ->
  let s3 := set_axis_units (Some us) (normalized (set_wcs (Some w) s) h) in
  let specc :=
    {| value := wcs_pix2world astropy (wcs_sub astropy w ["spectral"%string])
                  (seq 0 n);
       unit := u |} in
  frequencies astropy s =
  match Quantity_to astropy specc Hz eq with
  | Ok f => (Ok f, set_frequencies (Some f) s3)
  | Raise e => (Raise e, s3)
  end.
Proof.
  intros Hf Hh Hw Hn Hus Hu Ht Heq s3 specc.
  assert (Hau := axis_units_cases astropy s w us Hw Hus).
  unfold frequencies. unfold bind at 1. unfold get_attr. rewrite Hf.
  rewrite (bind_ok _ _ _ _ s w _ (wcs_run astropy s w Hw)).
  set (s1 := set_wcs (Some w) s).
  rewrite (bind_ok _ _ _ _ s1 _ _ (data_run s1 h Hh)).
  unfold tuple_index at 1. simpl Np.shape. rewrite Hn. simpl of_option.
  rewrite (bind_ok _ _ (ret n) _ _ n _ eq_refl).
  set (s2 := normalized s1 h).
  unfold spec_wcs.
  rewrite (bind_ok _ _ (bind (wcs astropy) _) _ s2
             (wcs_sub astropy w ["spectral"%string]) s2).
  2:{ now rewrite (bind_ok _ _ _ _ s2 w s2 (wcs_cached astropy s2 w eq_refl)). }
  rewrite (bind_ok _ _ _ _ s2 us _
             (axis_units_run astropy s2 w us eq_refl Hau)).
  unfold list_index. rewrite Hu. unfold recorded_ctype in Ht. rewrite Ht.
  simpl of_option. fold s3. fold specc.
  unfold equivalency_of in Heq.
  unfold bind, ret, raise, lift, modify.
  destruct (Py.contains "VRAD" t).
  { injection Heq as <-. reflexivity. }
  destruct (Py.contains "VOPT" t).
  { injection Heq as <-. reflexivity. }
  destruct (Py.contains "FREQ" t); [|discriminate].
  injection Heq as <-. reflexivity.
Qed.

Lemma frequencies_cached astropy s f :
  _frequencies s = Some f -> frequencies astropy s = (Ok f, s).
Proof. intros H. unfold frequencies, bind, get_attr. now rewrite H. Qed.

(** X20.  The frequency axis: one world coordinate of the spectral part of the
    WCS for each channel 0, ..., n - 1 of the spectral axis of the array,
    in the unit of that axis, converted to Hz under the equivalency of
    the first of VRAD, VOPT and FREQ that occurs in the axis type.  The
    result is cached and returned by every later access; when the
    conversion raises, so does the access, and nothing is cached. *)
Theorem frequencies_computed astropy s h w n us u t eq :
  _frequencies s = None ->
  _hdu s = Some h ->
  fst (wcs astropy s) = Ok w ->
  Py.index (rev (Np.shape (hdu_data h))) (spec w) = Some n ->
  fst (axis_units astropy s) = Ok us ->
  Py.index us (spec w) = Some u ->
  recorded_ctype w = Some t ->
  equivalency_of w t = Some eq ->
  let specc :=
    {| value := wcs_pix2world astropy (wcs_sub astropy w ["spectral"%string])
                  (seq 0 n);
       unit := u |} in
  let later := snd (frequencies astropy s) in
  fst (frequencies astropy s) = Quantity_to astropy specc Hz eq /\
  (forall f, Quantity_to astropy specc Hz eq = Ok f ->
     _frequencies later = Some f /\
     frequencies astropy later = (Ok f, later)) /\
  (forall e, Quantity_to astropy specc Hz eq = Raise e ->
     _frequencies later = None).
Proof.
  intros Hf Hh Hw Hn Hus Hu Ht Heq specc later. subst later.
  rewrite (frequencies_supported_run astropy s h w n us u t eq
             Hf Hh Hw Hn Hus Hu Ht Heq).
  fold specc. destruct (Quantity_to astropy specc Hz eq) as [f|e].
  - split; [reflexivity|]. split; [|discriminate].
    intros f' [= <-]. cbn [snd]. split; [reflexivity|].
    now apply frequencies_cached.
  - split; [reflexivity|]. split; [discriminate|].
    intros e' _. exact Hf.
Qed.

Lemma frequencies_computed_witness :
  fst (frequencies example_astropy (example_base_object "VOPT-FREQ" "10"))
  = Quantity_to example_astropy
      {| value := [10; 20; 30]%Q; unit := km_per_s |} Hz
      (doppler_optical 1420405752).
Proof.
  refine (eq_trans
    (proj1 (frequencies_computed example_astropy
              (example_base_object "VOPT-FREQ" "10")
              (ImageHDU example_cube (example_header "VOPT-FREQ" "10"))
              (WCS_of_header example_astropy
                 (example_header "VOPT-FREQ" "10"))
              3 [other_unit "deg"; other_unit "deg"; km_per_s] km_per_s
              "VOPT-FREQ" (doppler_optical 1420405752)
              _ _ _ _ _ _ _ _)) _).
  - reflexivity.
  - reflexivity.
  - reflexivity.
  - reflexivity.
  - reflexivity.
  - reflexivity.
  - reflexivity.
  - reflexivity.
  - reflexivity.
Defined.

(** X21.  The axis units: every unit string of the WCS parsed, in order, and
    cached; when one does not parse the access raises what the parser
    raised and caches no units, though the WCS stays cached. *)
Theorem axis_units_computed astropy s w :
  _axis_units s = None -> fst (wcs astropy s) = Ok w ->
  let parsed := traverse (Unit_of_string astropy) (cunit w) in
  let later := snd (axis_units astropy s) in
  fst (axis_units astropy s) = parsed /\
  _wcs later = Some w /\
  (forall us, parsed = Ok us ->
     _axis_units later = Some us /\
     axis_units astropy later = (Ok us, later)) /\
  (forall e, parsed = Raise e -> _axis_units later = None).
Proof.
  intros Hu Hw parsed later. subst later.
  assert (E : axis_units astropy s =
              match parsed with
              | Ok us => (Ok us, set_axis_units (Some us) (set_wcs (Some w) s))
              | Raise e => (Raise e, set_wcs (Some w) s)
              end).
  { unfold axis_units. unfold bind at 1. unfold get_attr. rewrite Hu.
    rewrite (bind_ok _ _ _ _ s w _ (wcs_run astropy s w Hw)).
    unfold bind, lift, modify, ret. fold parsed. now destruct parsed. }
  rewrite E. destruct parsed as [us|e].
  - split; [reflexivity|]. split; [reflexivity|]. split; [|discriminate].
    intros us' [= <-]. split; [reflexivity|].
    unfold axis_units, bind, get_attr. reflexivity.
  - split; [reflexivity|]. split; [reflexivity|]. split; [discriminate|].
    intros e' _. exact Hu.
Qed.

Lemma axis_units_computed_witness :
  fst (axis_units example_astropy (example_object "VRAD" "10"))
  = Ok [other_unit "deg"; other_unit "deg"; other_unit "m/s"].
Proof.
  exact (proj1
    (axis_units_computed example_astropy (example_object "VRAD" "10")
       (WCS_of_header example_astropy
          (header_set "SPECSYS" "LSRK"
             (header_set "CTYPE3" "VRAD"
                (header_set "CUNIT3" "m/s" (example_header "VRAD" "10")))))
       eq_refl eq_refl)).
Defined.

(* ================================================================= *)
(** * Further properties: what the methods write *)

Lemma preserves_header P : preserves P header.
Proof. intros s Hs. unfold header. now destruct (_hdu s). Qed.

Ltac pres_step :=
  first
    [ lazymatch goal with
      | |- preserves _ _ => fail
      | |- _ => intro; cbv beta
      end
    | apply preserves_bind
    | apply preserves_ret | apply preserves_raise | apply preserves_lift
    | apply preserves_get_attr | apply preserves_of_option
    | lazymatch goal with
      | |- preserves _ header => apply preserves_header
      | |- preserves _ (modify _) => apply preserves_modify; intros; auto
      | |- preserves _ data => apply preserves_data; auto
      end
    | match goal with
      | |- preserves _ (match ?x with _ => _ end) => destruct x
      | |- preserves _ (if ?x then _ else _) => destruct x
      end ].

Section Writes.

Variable astropy : Astropy.
Variable P : Datacube -> Prop.

Hypothesis P_wcs : forall s x, P s -> P (set_wcs x s).
Hypothesis P_axis_units : forall s x, P s -> P (set_axis_units x s).
Hypothesis P_frequencies : forall s x, P s -> P (set_frequencies x s).
Hypothesis P_data : forall s h, P s -> _hdu s = Some h -> P (normalized s h).

Lemma preserves_wcs : preserves P (wcs astropy).
Proof. unfold wcs. repeat pres_step. Qed.

Lemma preserves_axis_units : preserves P (axis_units astropy).
Proof.
  unfold axis_units.
  repeat first [apply preserves_wcs | pres_step].
Qed.

Lemma preserves_frequencies : preserves P (frequencies astropy).
Proof.
  unfold frequencies, spec_wcs, tuple_index, list_index.
  repeat first [apply preserves_wcs | apply preserves_axis_units | pres_step].
Qed.

Hypothesis P_radio : forall s x, P s -> P (set_radio_velocities x s).

Lemma preserves_radio_velocities : preserves P (radio_velocities astropy).
Proof.
  unfold radio_velocities.
  repeat first [apply preserves_wcs | apply preserves_frequencies | pres_step].
Qed.

Lemma preserves_lookup velocities :
  preserves P (radio_velocities_to_channels astropy velocities).
Proof.
  unfold radio_velocities_to_channels, array_index.
  repeat first [apply preserves_radio_velocities | pres_step].
Qed.

Lemma preserves_moment vslice cslice kind mask :
  preserves P (moment astropy vslice cslice kind mask).
Proof.
  unfold moment, moment_range, moment_mask, get_velocities.
  repeat first [apply preserves_lookup | pres_step].
Qed.

Hypothesis P_optical : forall s x, P s -> P (set_optical_velocities x s).

Lemma preserves_optical_velocities :
  preserves P (optical_velocities astropy).
Proof.
  unfold optical_velocities.
  repeat first [apply preserves_wcs | apply preserves_frequencies | pres_step].
Qed.

End Writes.

(** X22.  The two velocity axes are conversions of the frequency axis to km/s,
    under the radio and under the optical Doppler equivalency at the rest
    frequency of the WCS; each is cached on success and on its own:
    computing one fills the WCS, unit and frequency caches and leaves the
    cache of the other as it was. *)
Theorem velocities_computed astropy s w f :
  fst (wcs astropy s) = Ok w ->
  fst (frequencies astropy (snd (wcs astropy s))) = Ok f ->
  let s2 := snd (frequencies astropy (snd (wcs astropy s))) in
  (_radio_velocities s = None ->
   radio_velocities astropy s =
   match Quantity_to astropy f km_per_s (doppler_radio (restfrq w)) with
   | Ok v => (Ok v, set_radio_velocities (Some v) s2)
   | Raise e => (Raise e, s2)
   end) /\
  (_optical_velocities s = None ->
   optical_velocities astropy s =
   match Quantity_to astropy f km_per_s (doppler_optical (restfrq w)) with
   | Ok v => (Ok v, set_optical_velocities (Some v) s2)
   | Raise e => (Raise e, s2)
   end) /\
  _radio_velocities s2 = _radio_velocities s /\
  _optical_velocities s2 = _optical_velocities s.
Proof.
  intros Hw Hf s2.
  assert (Ew : wcs astropy s = (Ok w, snd (wcs astropy s))).
  { rewrite <- Hw. now destruct (wcs astropy s). }
  assert (Ef : frequencies astropy (snd (wcs astropy s)) = (Ok f, s2)).
  { subst s2. rewrite <- Hf.
    now destruct (frequencies astropy (snd (wcs astropy s))). }
  split; [|split; [|split]].
  - intros Hr. unfold radio_velocities. unfold bind at 1. unfold get_attr.
    rewrite Hr, (bind_ok _ _ _ _ _ _ _ Ew), (bind_ok _ _ _ _ _ _ _ Ef).
    unfold bind, lift, modify, ret.
    now destruct (Quantity_to astropy f km_per_s _).
  - intros Ho. unfold optical_velocities. unfold bind at 1. unfold get_attr.
    rewrite Ho, (bind_ok _ _ _ _ _ _ _ Ew), (bind_ok _ _ _ _ _ _ _ Ef).
    unfold bind, lift, modify, ret.
    now destruct (Quantity_to astropy f km_per_s _).
  - apply (preserves_frequencies astropy
             (fun x => _radio_velocities x = _radio_velocities s));
      try (intros x y Hx; exact Hx); try (intros x y Hx _; exact Hx).
    apply (preserves_wcs astropy
             (fun x => _radio_velocities x = _radio_velocities s));
      [intros x y Hx; exact Hx|reflexivity].
  - apply (preserves_frequencies astropy
             (fun x => _optical_velocities x = _optical_velocities s));
      try (intros x y Hx; exact Hx); try (intros x y Hx _; exact Hx).
    apply (preserves_wcs astropy
             (fun x => _optical_velocities x = _optical_velocities s));
      [intros x y Hx; exact Hx|reflexivity].
Qed.

Lemma velocities_computed_witness :
  radio_velocities example_astropy (example_object "VRAD" "10")
  = (Ok {| value := [10; 20; 30]%Q; unit := km_per_s |},
     set_radio_velocities
       (Some {| value := [10; 20; 30]%Q; unit := km_per_s |})
       (snd (frequencies example_astropy
               (snd (wcs example_astropy (example_object "VRAD" "10")))))) /\
  _optical_velocities
    (snd (radio_velocities example_astropy (example_object "VRAD" "10")))
  = None.
Proof.
  destruct (velocities_computed example_astropy (example_object "VRAD" "10")
              (WCS_of_header example_astropy
                 (header_set "SPECSYS" "LSRK"
                    (header_set "CTYPE3" "VRAD"
                       (header_set "CUNIT3" "m/s"
                          (example_header "VRAD" "10")))))
              {| value := [10; 20; 30]%Q; unit := Hz |} eq_refl eq_refl)
    as (Hr & _ & _ & _).
  split; [exact (Hr eq_refl)|]. reflexivity.
Defined.

Lemma same_cube_refl s : same_cube s s.
Proof. repeat split. Qed.

Lemma same_cube_normalized s0 s h :
  same_cube s0 s -> _hdu s = Some h -> same_cube s0 (normalized s h).
Proof.
  intros (H1 & H2 & H3 & H4 & H5) Hh. rewrite Hh in H3, H4, H5.
  repeat split; assumption.
Qed.

(** X23.  No property and no method changes the configured element type, the
    attribute [velocities], or the header, the image flag and the shape
    of the array of the loaded extension: they write caches and the
    converted array only. *)
Theorem methods_keep_cube astropy s :
  same_cube s (snd (data s)) /\
  same_cube s (snd (wcs astropy s)) /\
  same_cube s (snd (axis_units astropy s)) /\
  same_cube s (snd (frequencies astropy s)) /\
  same_cube s (snd (radio_velocities astropy s)) /\
  same_cube s (snd (optical_velocities astropy s)) /\
  (forall v, same_cube s (snd (radio_velocities_to_channels astropy v s))) /\
  (forall vslice cslice kind mask,
     same_cube s (snd (moment astropy vslice cslice kind mask s))).
Proof.
  assert (Hn := same_cube_normalized s).
  split; [|split; [|split; [|split; [|split; [|split; [|split]]]]]].
  - apply (preserves_data (same_cube s)); [exact Hn|apply same_cube_refl].
  - apply (preserves_wcs astropy (same_cube s));
      [now intros []|apply same_cube_refl].
  - apply (preserves_axis_units astropy (same_cube s));
      [now intros []..|apply same_cube_refl].
  - apply (preserves_frequencies astropy (same_cube s));
      [now intros []| now intros []| now intros []|exact Hn
      |apply same_cube_refl].
  - apply (preserves_radio_velocities astropy (same_cube s));
      [now intros []| now intros []| now intros []|exact Hn| now intros []
      |apply same_cube_refl].
  - apply (preserves_optical_velocities astropy (same_cube s));
      [now intros []| now intros []| now intros []|exact Hn| now intros []
      |apply same_cube_refl].
  - intros v.
    apply (preserves_lookup astropy (same_cube s));
      [now intros []| now intros []| now intros []|exact Hn| now intros []
      |apply same_cube_refl].
  - intros vslice cslice kind mask.
    apply (preserves_moment astropy (same_cube s));
      [now intros []| now intros []| now intros []|exact Hn| now intros []
      |apply same_cube_refl].
Qed.

(* ================================================================= *)
(** * Further properties: queries with units, masks of other shapes *)

(** X24.  A query that carries a unit is converted to the unit of the axis
    and then looked up as the plain numbers of the converted query; when
    the conversion raises, the lookup raises the same. *)
Theorem lookup_with_unit astropy s rv velocities :
  fst (radio_velocities astropy s) = Ok rv ->
  is_dimensionless_unscaled (unit velocities) = false ->
  match Quantity_to astropy velocities (unit rv) no_equivalency with
  | Ok q =>
      fst (radio_velocities_to_channels astropy velocities s)
      = fst (radio_velocities_to_channels astropy (plain (value q)) s)
  | Raise e =>
      fst (radio_velocities_to_channels astropy velocities s) = Raise e
  end.
Proof.
  intros Hrv Hu.
  destruct (radio_velocities_run astropy s rv Hrv) as (s' & _ & Hs & Hs').
  destruct (Quantity_to astropy velocities (unit rv) no_equivalency)
    as [q|e] eqn:Eq.
  - assert (Hq : query_values astropy rv velocities = Ok (value q)).
    { unfold query_values. now rewrite Hu, Eq. }
    assert (Hq' : query_values astropy rv (plain (value q)) = Ok (value q))
      by reflexivity.
    destruct (value rv) as [|x l] eqn:Ev.
    + rewrite (lookup_empty_run astropy s rv velocities _ Hrv Ev Hq).
      now rewrite (lookup_empty_run astropy s rv (plain (value q)) _
                     Hrv Ev Hq').
    + assert (Hne : value rv <> []) by (rewrite Ev; discriminate).
      rewrite (lookup_run astropy s rv velocities _ Hrv Hne Hq).
      now rewrite (lookup_run astropy s rv (plain (value q)) _ Hrv Hne Hq').
  - unfold radio_velocities_to_channels. rewrite Hu. cbn [negb].
    rewrite (bind_raise _ _ _ _ s e s'); [reflexivity|].
    rewrite (bind_ok _ _ _ _ _ _ _ Hs). unfold bind, lift. now rewrite Eq.
Qed.

Lemma lookup_with_unit_witness :
  fst (radio_velocities_to_channels example_astropy
         {| value := [20%Q]; unit := other_unit "m/s" |}
         (example_object "VRAD" "10"))
  = fst (radio_velocities_to_channels example_astropy (plain [20%Q])
           (example_object "VRAD" "10")).
Proof.
  exact (lookup_with_unit example_astropy (example_object "VRAD" "10")
           {| value := [10; 20; 30]%Q; unit := km_per_s |}
           {| value := [20%Q]; unit := other_unit "m/s" |}
           eq_refl eq_refl).
Defined.

Lemma shape_eqb_false s1 s2 : s1 <> s2 -> Np.shape_eqb s1 s2 = false.
Proof.
  intros H. unfold Np.shape_eqb.
  now destruct (list_eq_dec Nat.eq_dec s1 s2).
Qed.

(** X25.  A mask whose shape is neither that of a plane nor that of the cube
    is not rejected: it is multiplied with the selected data as it is,
    and when the two shapes do not broadcast the zeroth moment raises
    the value error of the multiplication. *)
Theorem moment0_mask_of_other_shape astropy s h n sh lo hi m :
  _hdu s = Some h -> Np.shape (hdu_data h) = n :: sh ->
  Np.shape m <> sh -> Np.shape m <> n :: sh ->
  let sl := {| Py.start := Some (Np.floor lo); Py.stop := Np.ceil hi |} in
  fst (moment_mask (Some m) sl s) = Ok (Np.of_array m) /\
  (Np.broadcast_shapes (snd (Py.slice_indices sl n) :: sh) (Np.shape m)
   = None ->
   fst (moment astropy None (Some [lo; hi]) 0 (Some m) s)
   = Raise (ValueError "operands could not be broadcast together")).
Proof.
  intros H Hsh Hp Hc sl.
  assert (Hm : fst (moment_mask (Some m) sl s) = Ok (Np.of_array m)).
  { unfold moment_mask.
    rewrite (bind_ok _ _ _ _ _ _ _ (data_run s h H)).
    change (Np.shape (Np.astype (hdu_data h) (_dtype s)))
      with (Np.shape (hdu_data h)).
    rewrite Hsh. cbn [tl]. rewrite (shape_eqb_false _ _ Hp).
    rewrite (bind_ok _ _ _ _ _ _ _ (data_normalized s h)).
    change (Np.shape (Np.astype (hdu_data h) (_dtype s)))
      with (Np.shape (hdu_data h)).
    now rewrite Hsh, (shape_eqb_false _ _ Hc). }
  split; [exact Hm|]. intros Hb.
  assert (Hsh' : Np.shape (hdu_data h) <> []) by (rewrite Hsh; discriminate).
  destruct (moment_channel_range astropy s h [lo; hi] 0 (Some m) H Hsh')
    as (sl' & mv & s_data & Hsl & Hg & Hm' & Hrun); [discriminate|].
  change (moment_slice [lo; hi]) with (Ok sl) in Hsl.
  injection Hsl as <-. rewrite Hm in Hm'. injection Hm' as <-.
  destruct (getslice_ok (Np.of_array (Np.astype (hdu_data h) (_dtype s)))
              sl n sh Hsh) as (v' & Hv & Hs).
  rewrite Hg in Hv. injection Hv as <-.
  rewrite Hrun. change (0 =? 0)%Z with true. cbv iota.
  unfold Np.multiply, Np.map2. rewrite Hs.
  cbn [Np.vshape Np.of_array]. now rewrite Hb.
Qed.

Lemma moment0_mask_of_other_shape_witness :
  fst (moment example_astropy None (Some [0; 3]%Q) 0
         (Some {| Np.dtype_of := Np.float64; Np.shape := [5];
                  Np.buf := [Np.one; Np.one; Np.one; Np.one; Np.one] |})
         (example_object "VRAD" "10"))
  = Raise (ValueError "operands could not be broadcast together").
Proof.
  refine (proj2
    (moment0_mask_of_other_shape example_astropy (example_object "VRAD" "10")
       (ImageHDU example_cube
          (header_set "SPECSYS" "LSRK"
             (header_set "CTYPE3" "VRAD"
                (header_set "CUNIT3" "m/s" (example_header "VRAD" "10")))))
       3 [1; 2] 0%Q 3%Q
       {| Np.dtype_of := Np.float64; Np.shape := [5];
          Np.buf := [Np.one; Np.one; Np.one; Np.one; Np.one] |}
       _ _ _ _) _).
  - reflexivity.
  - reflexivity.
  - discriminate.
  - discriminate.
  - reflexivity.
Defined.

(* ================================================================= *)
(** * Further properties: the first moment on an object with velocities *)

Lemma broadcast_shapes_column k ny nx :
  Np.broadcast_shapes [k; ny; nx] [k; 1; 1] = Some [k; ny; nx].
Proof.
  unfold Np.broadcast_shapes.
  change (rev [k; ny; nx]) with [nx; ny; k].
  change (rev [k; 1; 1]) with [1; 1; k].
  rewrite (fits_broadcast [1; 1; k] [nx; ny; k]); [reflexivity|].
  simpl. auto.
Qed.

Lemma bitem_column sv k i y x :
  Np.vshape sv = [k] -> i < k ->
  Np.bitem (Np.column sv) [i; y; x] = Np.vitem sv [i].
Proof.
  intros Hs Hi. unfold Np.bitem, Np.column. cbn [Np.vshape Np.vitem].
  rewrite Hs. cbn [app rev length Np.project_rev firstn].
  simpl. destruct (Nat.eqb_spec k 1); [|reflexivity].
  replace i with 0 by lia. reflexivity.
Qed.

Lemma in_range_plane idx ny nx :
  in_range idx [ny; nx] ->
  exists y x, idx = [y; x] /\ y < ny /\ x < nx.
Proof.
  intros H. inversion H as [|y ? r ? Hy Hr]; subst.
  inversion Hr as [|x ? r' ? Hx Hr']; subst.
  inversion Hr'; subst. now exists y, x.
Qed.

(** The run of the first moment on a cube of three axes, without a
    mask. *)
Lemma moment1_formula astropy s h n ny nx vel lo hi a b :
  _hdu s = Some h -> Np.shape (hdu_data h) = [n; ny; nx] ->
  velocities s = Some vel -> length (value vel) = n ->
  Np.floor lo = Z.of_nat a -> Np.ceil hi = Z.of_nat b -> a <= b <= n ->
  let d := Np.astype (hdu_data h) (_dtype s) in
  fst (moment astropy None (Some [lo; hi]) 1 None s)
  = Ok (Some
          {| Np.cshape := [ny; nx];
             Np.cbuf :=
               map (fun idx =>
                      Np.fdiv
                        (fold_left Np.fadd
                           (map (fun c =>
                                   Np.nan_to_zero
                                     (Np.fmul (Np.item d (c :: idx))
                                        (Np.Fin (nth c (value vel) 0%Q))))
                                (seq a (b - a)))
                           Np.zero)
                        (fold_left Np.fadd
                           (map (fun c => Np.nan_to_zero (Np.item d (c :: idx)))
                                (seq a (b - a)))
                           Np.zero))
                   (Np.indices [ny; nx]) |}).
Proof.
  intros H Hsh Hvel Hlen Hlo Hhi Hab d.
  assert (Hsh' : Np.shape (hdu_data h) <> []) by (rewrite Hsh; discriminate).
  destruct (moment_channel_range astropy s h [lo; hi] 1 None H Hsh')
    as (sl' & mv & s_data & Hsl & Hg & Hm & Hrun); [discriminate|].
  change (moment_slice [lo; hi])
    with (Ok {| Py.start := Some (Np.floor lo); Py.stop := Np.ceil hi |})
    in Hsl.
  injection Hsl as <-. simpl in Hm. injection Hm as <-.
  unfold Np.getslice in Hg.
  change (Np.vshape (Np.of_array (Np.astype (hdu_data h) (_dtype s))))
    with (Np.shape (hdu_data h)) in Hg.
  rewrite Hsh, Hlo, Hhi, (slice_indices_within n a b Hab) in Hg.
  injection Hg as <-.
  rewrite Hrun. clear Hrun. change (1 =? 0)%Z with false. change (1 =? 1)%Z with true.
  cbv iota.
  assert (Hgv : get_velocities (normalized s h) = (Ok vel, normalized s h)).
  { unfold get_velocities, bind, get_attr.
    change (velocities (normalized s h)) with (velocities s).
    now rewrite Hvel. }
  rewrite (bind_ok _ _ _ _ _ _ _ Hgv).
  unfold Np.getslice. cbn [Np.vshape view_of_values].
  rewrite Hlen, Hlo, Hhi, (slice_indices_within n a b Hab).
  unfold bind, lift, ret.
  unfold Np.multiply, Np.map2. cbn [Np.vshape Np.column Np.scalar app].
  rewrite broadcast_shapes_column. cbn [Np.vshape].
  rewrite !broadcast_scalar. cbn [Np.vshape].
  unfold Np.nansum0. cbn [Np.vshape].
  unfold idivide, Np.divide, Np.map2. cbn [Np.vshape].
  rewrite broadcast_shapes_same, shape_eqb_refl.
  cbn [fst]. unfold Np.materialize. cbn [Np.vshape Np.vitem].
  do 3 f_equal. apply map_ext_in. intros idx Hidx.
  apply indices_in_range in Hidx.
  destruct (in_range_plane idx ny nx Hidx) as (y & x & -> & Hy & Hx).
  rewrite !bitem_in_range by exact Hidx. cbn [Np.vitem].
  f_equal.
  - f_equal.
    rewrite <- (map_seq_from
                  (fun c => Np.nan_to_zero
                              (Np.fmul (Np.item d [c; y; x])
                                 (Np.Fin (nth c (value vel) 0%Q))))
                  a (b - a)).
    apply map_ext_in. intros i Hi. apply in_seq in Hi. f_equal.
    change (Np.bitem (Np.scalar Np.one) [i; y; x]) with Np.one.
    rewrite fmul_one_r.
    assert (Hr : in_range [i; y; x] [b - a; ny; nx])
      by (constructor; [lia|exact Hidx]).
    rewrite bitem_in_range by exact Hr. cbn [Np.vitem].
    rewrite bitem_in_range by exact Hr. cbn [Np.vitem].
    rewrite (bitem_column _ (b - a) i y x); [|reflexivity|lia].
    cbn [Np.vitem view_of_values]. f_equal.
    rewrite (nth_error_nth' (value vel) 0%Q) by lia. reflexivity.
  - f_equal.
    rewrite <- (map_seq_from
                  (fun c => Np.nan_to_zero (Np.item d [c; y; x])) a (b - a)).
    apply map_ext_in. intros i Hi. apply in_seq in Hi. f_equal.
    change (Np.bitem (Np.scalar Np.one) [i; y; x]) with Np.one.
    rewrite fmul_one_r.
    rewrite bitem_in_range by (constructor; [lia|exact Hidx]).
    reflexivity.
Qed.

(** X26.  With an attribute [velocities] of one value per channel on the
    object (no class of the module sets it), a cube of three axes, no
    mask and a channel range from [a] to [b] within the cube, the first
    moment at a pixel is the sum over the channels [a], ..., [b - 1] of
    data times velocity, divided by the sum of the data of the same
    channels, a not-a-number term counted as zero in either sum. *)
Theorem moment1_with_velocities astropy s h n ny nx vel lo hi a b :
  _hdu s = Some h -> Np.shape (hdu_data h) = [n; ny; nx] ->
  velocities s = Some vel -> length (value vel) = n ->
  Np.floor lo = Z.of_nat a -> Np.ceil hi = Z.of_nat b -> a <= b <= n ->
  let d := Np.astype (hdu_data h) (_dtype s) in
  fst (moment astropy None (Some [lo; hi]) 1 None s)
  = Ok (Some
          {| Np.cshape := [ny; nx];
             Np.cbuf :=
               map (fun idx =>
                      Np.fdiv
                        (fold_left Np.fadd
                           (map (fun c =>
                                   Np.nan_to_zero
                                     (Np.fmul (Np.item d (c :: idx))
                                        (Np.Fin (nth c (value vel) 0%Q))))
                                (seq a (b - a)))
                           Np.zero)
                        (fold_left Np.fadd
                           (map (fun c => Np.nan_to_zero (Np.item d (c :: idx)))
                                (seq a (b - a)))
                           Np.zero))
                   (Np.indices [ny; nx]) |}).
Proof.
  intros H Hsh Hvel Hlen Hlo Hhi Hab d. subst d.
  apply (moment1_formula astropy s h n ny nx vel lo hi a b);
    assumption.
Qed.

(** ** Reading a map at a pixel *)

Lemma length_indices sh : length (Np.indices sh) = Np.size sh.
Proof.
  induction sh as [|d sh IH]; [reflexivity|].
  simpl. fold (Np.size sh). rewrite <- IH.
  generalize 0 as s. induction d as [|d IHd]; intros s; [reflexivity|].
  simpl. rewrite length_app, length_map, IHd. reflexivity.
Qed.

Lemma nth_flat_map_blocks {A} (g : nat -> list A) m d s i r dflt :
  (forall j, length (g j) = m) -> i < d -> r < m ->
  nth (i * m + r) (flat_map g (seq s d)) dflt = nth r (g (s + i)) dflt.
Proof.
  intros Hg. revert s i. induction d as [|d IH]; intros s i Hi Hr; [lia|].
  simpl. destruct i as [|i].
  - rewrite app_nth1 by (rewrite Hg; simpl; lia).
    simpl. now rewrite Nat.add_0_r.
  - rewrite app_nth2 by (rewrite Hg; simpl; lia).
    rewrite Hg. replace (S i * m + r - m) with (i * m + r) by (simpl; lia).
    rewrite IH by lia. now rewrite Nat.add_succ_r.
Qed.

Lemma nth_indices sh idx :
  in_range idx sh -> nth (Np.ravel sh idx) (Np.indices sh) [] = idx.
Proof.
  induction 1 as [|i d idx sh Hi Hr IH]; [reflexivity|].
  simpl. fold (Np.size sh).
  rewrite (nth_flat_map_blocks _ (Np.size sh));
    [|intros j; now rewrite length_map, length_indices
     |assumption|now apply ravel_lt].
  simpl.
  rewrite (nth_indep _ [] (i :: []))
    by (rewrite length_map, length_indices; now apply ravel_lt).
  rewrite (map_nth (cons i)). now rewrite IH.
Qed.

Lemma citem_map f sh idx :
  in_range idx sh ->
  Np.citem {| Np.cshape := sh; Np.cbuf := map f (Np.indices sh) |} idx
  = f idx.
Proof.
  intros H. unfold Np.citem. cbn [Np.cshape Np.cbuf].
  rewrite (nth_indep _ Np.NaN (f []))
    by (rewrite length_map, length_indices; now apply ravel_lt).
  rewrite map_nth. now rewrite (nth_indices sh idx H).
Qed.

Lemma fold_fadd_zeros l acc :
  (forall x, In x l -> exists q, x = Np.Fin q /\ (q == 0)%Q) ->
  exists r, fold_left Np.fadd l (Np.Fin acc) = Np.Fin r /\ (r == acc)%Q.
Proof.
  revert acc. induction l as [|x l IH]; intros acc H.
  - exists acc. split; reflexivity.
  - destruct (H x (or_introl eq_refl)) as (q & -> & Hq).
    destruct (IH (acc + q)%Q) as (r & Hr & Er).
    { intros y Hy. apply H. now right. }
    exists r. split; [exact Hr|]. rewrite Er, Hq. ring.
Qed.

Lemma fold_fadd_single l1 x0 l2 :
  (forall x, In x l1 -> exists q, x = Np.Fin q /\ (q == 0)%Q) ->
  (forall x, In x l2 -> exists q, x = Np.Fin q /\ (q == 0)%Q) ->
  exists r,
    fold_left Np.fadd (l1 ++ Np.Fin x0 :: l2) Np.zero = Np.Fin r /\
    (r == x0)%Q.
Proof.
  intros H1 H2. rewrite fold_left_app. unfold Np.zero.
  destruct (fold_fadd_zeros l1 0%Q H1) as (r1 & -> & E1).
  simpl. destruct (fold_fadd_zeros l2 (r1 + x0)%Q H2) as (r & -> & E).
  exists r. split; [reflexivity|]. rewrite E, E1. ring.
Qed.

Lemma moment1_with_velocities_witness :
  fst (moment example_astropy None (Some [0; 3]%Q) 1 None
         example_with_velocities)
  = Ok (Some {| Np.cshape := [1; 2];
                Np.cbuf := [Np.fdiv (Np.Fin 160) (Np.Fin 6);
                            Np.fdiv (Np.Fin 280) (Np.Fin 12)] |}).
Proof.
  refine (eq_trans
    (moment1_with_velocities example_astropy example_with_velocities
       (ImageHDU example_cube
          (header_set "SPECSYS" "LSRK"
             (header_set "CTYPE3" "VRAD"
                (header_set "CUNIT3" "m/s" (example_header "VRAD" "10")))))
       3 1 2 {| value := [10; 20; 30]%Q; unit := km_per_s |}
       0%Q 3%Q 0 3 _ _ _ _ _ _ _) _).
  - reflexivity.
  - reflexivity.
  - reflexivity.
  - reflexivity.
  - reflexivity.
  - reflexivity.
  - lia.
  - vm_compute. reflexivity.
Defined.

Lemma seq_split_at a b c :
  a <= c < b -> seq a (b - a) = seq a (c - a) ++ c :: seq (S c) (b - S c).
Proof.
  intros H. replace (b - a) with ((c - a) + S (b - S c)) by lia.
  rewrite seq_app. simpl. now replace (a + (c - a)) with c by lia.
Qed.

(** X27.  On such an object, when at a pixel one channel of the range has a
    flux other than zero and every other channel of the range has zero
    or not-a-number there, the other channels add nothing to either sum:
    the first moment at that pixel is the quotient, as the element
    operations give it, of the product of that channel's flux and
    velocity by that channel's flux. *)
Theorem moment1_single_channel astropy s h n ny nx vel lo hi a b c0 y x q0 :
  _hdu s = Some h -> Np.shape (hdu_data h) = [n; ny; nx] ->
  velocities s = Some vel -> length (value vel) = n ->
  Np.floor lo = Z.of_nat a -> Np.ceil hi = Z.of_nat b -> a <= b <= n ->
  y < ny -> x < nx -> a <= c0 < b ->
  let d := Np.astype (hdu_data h) (_dtype s) in
  Np.item d [c0; y; x] = Np.Fin q0 -> ~ (q0 == 0)%Q ->
  (forall c, a <= c < b -> c <> c0 ->
     Np.item d [c; y; x] = Np.NaN \/
     exists q, Np.item d [c; y; x] = Np.Fin q /\ (q == 0)%Q) ->
  exists m,
    fst (moment astropy None (Some [lo; hi]) 1 None s) = Ok (Some m) /\
    Np.cshape m = [ny; nx] /\
    same_value (Np.citem m [y; x])
      (Np.fdiv (Np.fmul (Np.Fin q0) (Np.Fin (nth c0 (value vel) 0%Q)))
               (Np.Fin q0)).
Proof.
  intros H Hsh Hvel Hlen Hlo Hhi Hab Hy Hx Hc d Hq0 Hne Hother.
  rewrite (moment1_formula astropy s h n ny nx vel lo hi a b
             H Hsh Hvel Hlen Hlo Hhi Hab).
  fold d.
  assert (Hin : in_range [y; x] [ny; nx]) by (repeat constructor; assumption).
  set (v0 := nth c0 (value vel) 0%Q).
  assert (Hnum : exists r1,
    fold_left Np.fadd
      (map (fun c => Np.nan_to_zero
                       (Np.fmul (Np.item d [c; y; x])
                          (Np.Fin (nth c (value vel) 0%Q))))
           (seq a (b - a))) Np.zero = Np.Fin r1 /\ (r1 == q0 * v0)%Q).
  { rewrite (seq_split_at a b c0 Hc), map_app. cbn [map]. rewrite Hq0.
    apply fold_fadd_single; intros t Ht; apply in_map_iff in Ht;
      destruct Ht as (c & <- & Hin'); apply in_seq in Hin';
      destruct (Hother c) as [E|(q & E & Eq)]; try lia; rewrite E.
    - exists 0%Q. now split.
    - exists (q * nth c (value vel) 0)%Q. split; [reflexivity|].
      rewrite Eq. ring.
    - exists 0%Q. now split.
    - exists (q * nth c (value vel) 0)%Q. split; [reflexivity|].
      rewrite Eq. ring. }
  assert (Hden : exists r2,
    fold_left Np.fadd
      (map (fun c => Np.nan_to_zero (Np.item d [c; y; x])) (seq a (b - a)))
      Np.zero = Np.Fin r2 /\ (r2 == q0)%Q).
  { rewrite (seq_split_at a b c0 Hc), map_app. cbn [map]. rewrite Hq0.
    apply fold_fadd_single; intros t Ht; apply in_map_iff in Ht;
      destruct Ht as (c & <- & Hin'); apply in_seq in Hin';
      destruct (Hother c) as [E|(q & E & Eq)]; try lia; rewrite E.
    - exists 0%Q. now split.
    - exists q. now split.
    - exists 0%Q. now split.
    - exists q. now split. }
  destruct Hnum as (r1 & E1 & Q1). destruct Hden as (r2 & E2 & Q2).
  eexists. split; [reflexivity|].
  split; [reflexivity|]. rewrite (citem_map _ [ny; nx] [y; x] Hin).
  rewrite E1, E2. fold v0. unfold Np.fdiv, Np.fmul.
  destruct (Qeq_bool r2 0) eqn:E.
  { apply Qeq_bool_iff in E. rewrite Q2 in E. contradiction. }
  destruct (Qeq_bool q0 0) eqn:E'.
  { apply Qeq_bool_iff in E'. contradiction. }
  unfold same_value. now rewrite Q1, Q2.
Qed.

Lemma moment1_single_channel_witness :
  exists m,
    fst (moment example_astropy None (Some [0; 3]%Q) 1 None
           example_line_object) = Ok (Some m) /\
    Np.cshape m = [1; 2] /\
    same_value (Np.citem m [0; 0])
      (Np.fdiv (Np.fmul (Np.Fin 7) (Np.Fin 20)) (Np.Fin 7)).
Proof.
  apply (moment1_single_channel example_astropy example_line_object
           (ImageHDU example_line_cube
              (header_set "SPECSYS" "LSRK"
                 (header_set "CTYPE3" "VRAD"
                    (header_set "CUNIT3" "m/s"
                       (example_header "VRAD" "10")))))
           3 1 2 {| value := [10; 20; 30]%Q; unit := km_per_s |}
           0%Q 3%Q 0 3 1 0 0 7%Q).
  - reflexivity.
  - reflexivity.
  - reflexivity.
  - reflexivity.
  - reflexivity.
  - reflexivity.
  - lia.
  - lia.
  - lia.
  - lia.
  - reflexivity.
  - discriminate.
  - intros c Hc Hn.
    destruct c as [|[|[|c]]]; try lia.
    + right. exists 0%Q. split; reflexivity.
    + left. reflexivity.
Defined.
